(** * The Lambda authorizer of connectiv-auth-service

    A shallow embedding of [backend/lambda/authorizer/authorizer.py] and the
    properties of its authorization decision: token verification with one
    key-set refresh, claims validation, attribute extraction, construction of
    the Verified Permissions query, fail-closed decision and policy document. *)

From Stdlib Require Import List String Ascii Bool Arith Lia.
Import ListNotations.
Local Open Scope string_scope.
Local Open Scope list_scope.

(** ** Python values

    The handler works on JSON-like data: the event, the token claims, the key
    set, the request sent to the policy engine and the policy returned are all
    dicts of such values.  Floats behave like [VInt] for every operation used
    here (they are neither strings nor iterable) and are not kept apart. *)

#[local] Set Warnings "-register-all".

Inductive pyval : Type :=
| VNone
| VBool (b : bool)
| VInt (n : nat)
| VStr (s : string)
| VList (l : list pyval)
| VDict (d : list (string * pyval)).

(** A Python dict with string keys, in insertion order.  Keys of a dict are
    unique ([dict_wf]); [dict_set] keeps that. *)
Definition pydict : Type := list (string * pyval).

Fixpoint dict_get (d : pydict) (k : string) : option pyval :=
  match d with
  | [] => None
  | (k', v) :: d' => if String.eqb k' k then Some v else dict_get d' k
  end.

(** [d.get(k, default)] *)
Definition dict_get_default (d : pydict) (k : string) (default : pyval) : pyval :=
  match dict_get d k with
  | Some v => v
  | None => default
  end.

(** [d[k] = v]: an existing key keeps its place, a new key goes last. *)
Fixpoint dict_set (d : pydict) (k : string) (v : pyval) : pydict :=
  match d with
  | [] => [(k, v)]
  | (k', v') :: d' =>
      if String.eqb k' k then (k', v) :: d' else (k', v') :: dict_set d' k v
  end.

Definition dict_keys (d : pydict) : list string := map fst d.

Definition dict_wf (d : pydict) : Prop := NoDup (dict_keys d).

(** ** Python string operations used by the handler *)

(** [s.startswith(p)] *)
Definition startswith (s p : string) : bool := String.prefix p s.

(** [s[n:]] *)
Fixpoint drop (n : nat) (s : string) : string :=
  match n, s with
  | O, _ => s
  | S n', String _ s' => drop n' s'
  | S _, EmptyString => EmptyString
  end.

(** [sub in s] *)
Fixpoint contains (sub s : string) : bool :=
  String.prefix sub s ||
  match s with
  | EmptyString => false
  | String _ s' => contains sub s'
  end.

(** [s.replace(old, new)] for a non-empty [old]: every occurrence, found
    from the left and not overlapping, is replaced.  [skip] counts the
    characters of a matched occurrence that are still to be passed over. *)
Fixpoint replace_from (old new : string) (skip : nat) (s : string) : string :=
  match s with
  | EmptyString => EmptyString
  | String c s' =>
      match skip with
      | S k => replace_from old new k s'
      | O =>
          if String.prefix old s
          then new ++ replace_from old new (String.length old - 1) s'
          else String c (replace_from old new 0 s')
      end
  end.

Definition str_replace (s old new : string) : string := replace_from old new 0 s.

(** ** Exceptions

    The classes the source names, and the built-in ones its own expressions
    raise; a constructor stands for its class with its subclasses, as an
    [except] clause reads it.  [OtherException] is an instance of [Exception]
    that belongs to none of the named classes.  A [ClientError] carries the
    [Error] member of its [response], which botocore sets on every error
    response it parses; the string of a [JoseError] is its [str()]. *)

Inductive exn : Type :=
| JoseError (msg : string)
| ValueError (msg : string)
| RequestException (msg : string)
| ClientError (error : pydict)
| TypeError (msg : string)
| AttributeError (msg : string)
| OtherException (cls msg : string).

Inductive result (A : Type) : Type :=
| Ok (a : A)
| Raise (e : exn).
Arguments Ok {A} a.
Arguments Raise {A} e.

(** ** The process and its collaborators

    [JWKS_CACHE] is the module-level key set.  [history] lists the calls made
    to the three external collaborators, oldest first.  Logging and [print]
    have no influence on control flow and are left out. *)

Inductive io : Type :=
| IoFetch (url : string)
| IoDecode (token : string) (jwks : pyval)
| IoIsAuthorized (request : pydict).

Record world : Type := mkWorld {
  JWKS_CACHE : pyval;
  history : list io
}.

(** The configuration read from the environment at import time, and the
    external collaborators.  Each collaborator answers from the calls made so
    far, so that it may answer differently from one call to the next.
    - [requests_get_json history url] is [requests.get(url, timeout=5)]
      followed by [raise_for_status()] and [json()];
    - [jwt_decode history token jwks] is [JWT_VERIFIER.decode(token, jwks)]
      followed by [claims.validate()];
    - [vp_is_authorized history request] is
      [VP_CLIENT.is_authorized( **request)]. *)
Record environment : Type := mkEnv {
  REGION : string;
  USER_POOL_ID : string;
  CLIENT_ID : string;
  POLICY_STORE_ID : string;
  requests_get_json : list io -> string -> result pyval;
  jwt_decode : list io -> string -> pyval -> result pydict;
  vp_is_authorized : list io -> pydict -> result pydict
}.

(** ** State and exception monad *)

Definition M (A : Type) : Type := world -> result A * world.

Definition ret {A} (a : A) : M A := fun w => (Ok a, w).

Definition raise {A} (e : exn) : M A := fun w => (Raise e, w).

Definition bind {A B} (m : M A) (f : A -> M B) : M B :=
  fun w =>
    match m w with
    | (Ok a, w') => f a w'
    | (Raise e, w') => (Raise e, w')
    end.

(** [try: m except <classes chosen by h>: ...]: a [None] of [h] lets the
    exception through. *)
Definition try_except {A} (m : M A) (h : exn -> option (M A)) : M A :=
  fun w =>
    match m w with
    | (Ok a, w') => (Ok a, w')
    | (Raise e, w') =>
        match h e with
        | Some k => k w'
        | None => (Raise e, w')
        end
    end.

Definition lift {A} (r : result A) : M A := fun w => (r, w).

Definition read_cache : M pyval := fun w => (Ok (JWKS_CACHE w), w).

Definition write_cache (j : pyval) : M unit :=
  fun w => (Ok tt, mkWorld j (history w)).

(** An external call: it is recorded, then answered from the earlier calls. *)
Definition call {A} (ev : io) (answer : list io -> result A) : M A :=
  fun w => (answer (history w), mkWorld (JWKS_CACHE w) (history w ++ [ev])).

Declare Scope py_scope.
Delimit Scope py_scope with py.
Notation "x <- m ;; k" := (bind m (fun x => k))
  (at level 100, m at next level, right associativity) : py_scope.
Notation "m ;;; k" := (bind m (fun _ => k))
  (at level 100, right associativity) : py_scope.
Local Open Scope py_scope.

(** ** The authorizer *)

Section Authorizer.

Variable E : environment.

Definition jwks_url (region user_pool_id : string) : string :=
  "https://cognito-idp." ++ region ++ ".amazonaws.com/" ++ user_pool_id
    ++ "/.well-known/jwks.json".

(** [fetch_jwks]: the key set, or the empty dict on a [RequestException]. *)
Definition fetch_jwks (region user_pool_id : string) : M pyval :=
  let url := jwks_url region user_pool_id in
  try_except
    (call (IoFetch url) (fun h => requests_get_json E h url))
    (fun e =>
       match e with
       | RequestException _ => Some (ret (VDict []))
       | _ => None
       end).

Definition decode_and_validate_token (token : string) (jwks : pyval) : M pydict :=
  call (IoDecode token jwks) (fun h => jwt_decode E h token jwks).

Definition refresh_jwks_and_retry (token exc_msg : string) : M pydict :=
  if contains "Key not found" exc_msg then
    new_jwks <- fetch_jwks (REGION E) (USER_POOL_ID E) ;;
    write_cache new_jwks ;;;
    call (IoDecode token new_jwks) (fun h => jwt_decode E h token new_jwks)
  else
    raise (JoseError exc_msg).

(** [a != s] for a string [s]: only the same string is equal to it. *)
Definition ne_str (a : pyval) (s : string) : bool :=
  match a with
  | VStr t => negb (String.eqb t s)
  | _ => true
  end.

Definition expected_issuer (region user_pool_id : string) : string :=
  "https://cognito-idp." ++ region ++ ".amazonaws.com/" ++ user_pool_id.

Definition validate_claims (claims : pydict) (client_id region user_pool_id : string)
  : M unit :=
  if ne_str (dict_get_default claims "aud" VNone) client_id then
    raise (ValueError "Invalid audience")
  else if ne_str (dict_get_default claims "iss" VNone)
                 (expected_issuer region user_pool_id) then
    raise (ValueError "Invalid issuer")
  else ret tt.

Definition wrap_value (val : pyval) : pyval := VDict [("string", val)].

Definition principal_attributes (group_value : pyval) (custom_attributes : pydict)
  : pydict :=
  fold_left (fun attrs kv => dict_set attrs (fst kv) (wrap_value (snd kv)))
            custom_attributes
            [("group", wrap_value group_value)].

Definition build_auth_request
  (policy_store_id : string) (principal_id group_value : pyval)
  (custom_attributes : pydict) (action_id resource_id : string) : pydict :=
  [ ("policyStoreId", VStr policy_store_id);
    ("principal", VDict [ ("entityType", VStr "ExampleCo::Connectiv::User");
                          ("entityId", principal_id) ]);
    ("action", VDict [ ("actionType", VStr "ExampleCo::Connectiv::Action");
                       ("actionId", VStr action_id) ]);
    ("resource", VDict [ ("entityType", VStr "ExampleCo::Connectiv::Resource");
                         ("entityId", VStr resource_id) ]);
    ("entities",
      VDict [ ("entityList",
        VList [ VDict [ ("identifier",
                          VDict [ ("entityType", VStr "ExampleCo::Connectiv::User");
                                  ("entityId", principal_id) ]);
                        ("attributes",
                          VDict (principal_attributes group_value custom_attributes)) ] ]) ])
  ].

(** [a == s] for a string [s]. *)
Definition eq_str (a : pyval) (s : string) : bool := negb (ne_str a s).

Definition evaluate_policy (auth_request : pydict) : M string :=
  try_except
    (vp_response <- call (IoIsAuthorized auth_request)
                         (fun h => vp_is_authorized E h auth_request) ;;
     let decision := dict_get_default vp_response "decision" (VStr "DENY") in
     ret (if eq_str decision "ALLOW" then "Allow" else "Deny"))
    (fun e =>
       match e with
       | ClientError error =>
           let error_code := dict_get_default error "Code" (VStr "Unknown") in
           Some (ret "Deny")
       | _ => Some (ret "Deny")
       end).

Definition generate_policy
  (principal_id : pyval) (effect : string) (resource : pyval)
  (context_data : option pydict) : pydict :=
  let context_data := match context_data with Some c => c | None => [] end in
  let policy_document :=
    [ ("Version", VStr "2012-10-17");
      ("Statement",
        VList [ VDict [ ("Action", VStr "execute-api:Invoke");
                        ("Effect", VStr effect);
                        ("Resource", resource) ] ]) ] in
  let context_data := dict_set context_data "username" principal_id in
  [ ("principalId", principal_id);
    ("policyDocument", VDict policy_document);
    ("context", VDict context_data) ].

Definition extract_custom_attributes (claims : pydict) : pydict :=
  fold_left
    (fun acc kv =>
       if startswith (fst kv) "custom:"
       then dict_set acc (str_replace (fst kv) "custom:" "") (snd kv)
       else acc)
    claims [].

(** [next(iter(x), default)]: the first item [x] yields, [default] when it
    yields none; a value that is not iterable raises [TypeError]. *)
Definition next_iter (x default : pyval) : result pyval :=
  match x with
  | VList [] => Ok default
  | VList (a :: _) => Ok a
  | VStr EmptyString => Ok default
  | VStr (String c _) => Ok (VStr (String c EmptyString))
  | VDict [] => Ok default
  | VDict ((k, _) :: _) => Ok (VStr k)
  | VNone => Raise (TypeError "'NoneType' object is not iterable")
  | VBool _ => Raise (TypeError "'bool' object is not iterable")
  | VInt _ => Raise (TypeError "'int' object is not iterable")
  end.

(** The token of the event with its [Bearer ] prefix removed; [startswith]
    on a value that is not a string raises [AttributeError]. *)
Definition bearer_token (event : pydict) : result string :=
  match dict_get_default event "authorizationToken" (VStr "") with
  | VStr token =>
      Ok (if startswith token "Bearer "
          then drop (String.length "Bearer ") token
          else token)
  | _ => Raise (AttributeError "object has no attribute 'startswith'")
  end.

(** The local variables [principal_id] and [effect] of [lambda_handler]. *)
Record locals : Type := mkLocals {
  principal_id : pyval;
  effect : string
}.

(** The first half of the [try] block: the claims of the token, verified
    against the cached key set and, after a [JoseError], through
    [refresh_jwks_and_retry]. *)
Definition verified_claims (token : string) : M pydict :=
  try_except
    (jwks <- read_cache ;; decode_and_validate_token token jwks)
    (fun e =>
       match e with
       | JoseError msg => Some (refresh_jwks_and_retry token msg)
       | _ => None
       end).

(** The [try] block, from the state of the locals at its start.  An exception
    comes with the locals as they were when it was raised. *)
Definition try_block (token : string) (l : locals) : M (locals * option exn) :=
  fun w =>
    match (claims <- verified_claims token ;;
           validate_claims claims (CLIENT_ID E) (REGION E) (USER_POOL_ID E) ;;;
           ret claims) w with
    | (Raise e, w1) => (Ok (l, Some e), w1)
    | (Ok claims, w1) =>
        let l1 := mkLocals (dict_get_default claims "cognito:username" (VStr "unknown"))
                           (effect l) in
        match next_iter (dict_get_default claims "cognito:groups" (VList []))
                        (VStr "Unknown") with
        | Raise e => (Ok (l1, Some e), w1)
        | Ok group_value =>
            let custom_attrs := extract_custom_attributes claims in
            let auth_request :=
              build_auth_request (POLICY_STORE_ID E) (principal_id l1) group_value
                                 custom_attrs "access" "my-resource" in
            match evaluate_policy auth_request w1 with
            | (Ok eff, w2) => (Ok (mkLocals (principal_id l1) eff, None), w2)
            | (Raise e, w2) => (Ok (l1, Some e), w2)
            end
        end
    end.

Definition lambda_handler (event : pydict) : M pydict :=
  let l0 := mkLocals (VStr "unknown") "Deny" in
  token <- lift (bearer_token event) ;;
  r <- try_block token l0 ;;
  let resource := dict_get_default event "methodArn" (VStr "*") in
  match r with
  | (l, None) => ret (generate_policy (principal_id l) (effect l) resource None)
  | (l, Some (JoseError _))
  | (l, Some (ValueError _)) =>
      ret (generate_policy (principal_id l) (effect l) resource None)
  | (_, Some e) => raise e
  end.

End Authorizer.

(** ** The specification's reading of attribute extraction

    The spec strips the leading prefix of a claim name and nothing else. *)

(** [s.removeprefix(p)] *)
Definition removeprefix (s p : string) : string :=
  if String.prefix p s then drop (String.length p) s else s.

Definition extract_custom_attributes_spec (claims : pydict) : pydict :=
  fold_left
    (fun acc kv =>
       if startswith (fst kv) "custom:"
       then dict_set acc (removeprefix (fst kv) "custom:") (snd kv)
       else acc)
    claims [].

(** ** Reading a request and a policy back *)

(** [request["entities"]["entityList"][0]], the one entity sent along. *)
Definition request_entity (request : pydict) : option pydict :=
  match dict_get request "entities" with
  | Some (VDict es) =>
      match dict_get es "entityList" with
      | Some (VList (VDict e :: _)) => Some e
      | _ => None
      end
  | _ => None
  end.

Definition request_attributes (request : pydict) : option pydict :=
  match request_entity request with
  | Some e =>
      match dict_get e "attributes" with
      | Some (VDict a) => Some a
      | _ => None
      end
  | None => None
  end.

(** The statements of a policy, [policy["policyDocument"]["Statement"]]. *)
Definition policy_statements (policy : pydict) : option (list pyval) :=
  match dict_get policy "policyDocument" with
  | Some (VDict doc) =>
      match dict_get doc "Statement" with
      | Some (VList sts) => Some sts
      | _ => None
      end
  | _ => None
  end.

(** The effect of a policy that has exactly one statement. *)
Definition policy_effect (policy : pydict) : option pyval :=
  match policy_statements policy with
  | Some [VDict st] => dict_get st "Effect"
  | _ => None
  end.

Definition policy_context (policy : pydict) : option pydict :=
  match dict_get policy "context" with
  | Some (VDict c) => Some c
  | _ => None
  end.

(** The value of the last item of [d] under key [k]: what a loop of
    assignments over the items of [d] leaves under [k]. *)
Fixpoint dict_get_last (d : pydict) (k : string) : option pyval :=
  match d with
  | [] => None
  | (k', v) :: d' =>
      match dict_get_last d' k with
      | Some x => Some x
      | None => if String.eqb k' k then Some v else None
      end
  end.

(** The items [extract_custom_attributes] assigns, in order. *)
Definition custom_items (claims : pydict) : pydict :=
  map (fun kv => (str_replace (fst kv) "custom:" "", snd kv))
      (filter (fun kv => startswith (fst kv) "custom:") claims).

Definition count_fetch (h : list io) : nat :=
  List.length (filter (fun ev => match ev with IoFetch _ => true | _ => false end) h).

Definition count_decode (h : list io) : nat :=
  List.length (filter (fun ev => match ev with IoDecode _ _ => true | _ => false end) h).

Definition count_is_authorized (h : list io) : nat :=
  List.length (filter (fun ev => match ev with IoIsAuthorized _ => true | _ => false end) h).

(** ** Outcomes of the stages

    What each stage makes of the answer of its collaborator, and the handler
    from the point where the claims are at hand. *)

(** What [fetch_jwks] returns for an answer of the identity provider. *)
Definition fetched (answer : result pyval) : result pyval :=
  match answer with
  | Ok j => Ok j
  | Raise (RequestException _) => Ok (VDict [])
  | Raise e => Raise e
  end.

(** The exceptions [lambda_handler] turns into a [Deny]. *)
Definition absorbed (e : exn) : bool :=
  match e with
  | JoseError _ | ValueError _ => true
  | _ => false
  end.

(** A verification failure that [refresh_jwks_and_retry] answers with a
    refresh. *)
Definition key_missing (e : exn) : bool :=
  match e with
  | JoseError msg => contains "Key not found" msg
  | _ => false
  end.

(** The policy returned when the [try] block fails before the principal is
    known. *)
Definition deny_policy (event : pydict) : pydict :=
  generate_policy (VStr "unknown") "Deny"
                  (dict_get_default event "methodArn" (VStr "*")) None.

(** What [evaluate_policy] returns for an answer of the policy engine. *)
Definition decision_of (answer : result pydict) : string :=
  match answer with
  | Ok vp_response =>
      if eq_str (dict_get_default vp_response "decision" (VStr "DENY")) "ALLOW"
      then "Allow" else "Deny"
  | Raise _ => "Deny"
  end.

(** What the handler makes of an exception that reaches its [except]
    clause, the locals being [principal] and [Deny]. *)
Definition handled (e : exn) (principal resource : pyval) : result pydict :=
  if absorbed e then Ok (generate_policy principal "Deny" resource None) else Raise e.

(** The query the handler sends for verified claims and their group value. *)
Definition query_of (E : environment) (claims : pydict) (group_value : pyval) : pydict :=
  build_auth_request (POLICY_STORE_ID E)
    (dict_get_default claims "cognito:username" (VStr "unknown"))
    group_value (extract_custom_attributes claims) "access" "my-resource".

(** [next(iter(claims.get("cognito:groups", [])), "Unknown")] *)
Definition group_value_of (claims : pydict) : result pyval :=
  next_iter (dict_get_default claims "cognito:groups" (VList [])) (VStr "Unknown").

(** The handler from the point where the claims of the token are at hand:
    claims validation, extraction, the query and the policy. *)
Definition authorized_from (E : environment) (event claims : pydict) (w1 : world)
  : result pydict * world :=
  let resource := dict_get_default event "methodArn" (VStr "*") in
  match validate_claims claims (CLIENT_ID E) (REGION E) (USER_POOL_ID E) w1 with
  | (Raise e, w1') => (handled e (VStr "unknown") resource, w1')
  | (Ok _, w1') =>
      let principal := dict_get_default claims "cognito:username" (VStr "unknown") in
      match group_value_of claims with
      | Raise e => (handled e principal resource, w1')
      | Ok group_value =>
          let request := query_of E claims group_value in
          (Ok (generate_policy principal
                 (decision_of (vp_is_authorized E (history w1') request))
                 resource None),
           mkWorld (JWKS_CACHE w1') (history w1' ++ [IoIsAuthorized request]))
      end
  end.

(** ** Sample process

    A configuration, a key set, an event and collaborators for the scenarios
    below. *)

(** Sample configuration: collaborators are supplied per scenario. *)
Definition sample_env
  (http : list io -> string -> result pyval)
  (jwt : list io -> string -> pyval -> result pydict)
  (vp : list io -> pydict -> result pydict) : environment :=
  mkEnv "eu-west-1" "pool-1" "client-1" "store-1" http jwt vp.

Definition sample_claims : pydict :=
  [ ("aud", VStr "client-1");
    ("iss", VStr "https://cognito-idp.eu-west-1.amazonaws.com/pool-1");
    ("cognito:username", VStr "alice");
    ("cognito:groups", VList [VStr "admin"; VStr "staff"]);
    ("custom:department", VStr "finance") ].

Definition sample_jwks : pyval :=
  VDict [("keys", VList [VDict [("kid", VStr "key-1"); ("kty", VStr "RSA")]])].

Definition sample_world : world := mkWorld sample_jwks [].

Definition sample_event (token : pyval) : pydict :=
  [ ("type", VStr "TOKEN");
    ("authorizationToken", token);
    ("methodArn", VStr "arn:aws:execute-api:eu-west-1:1:api/prod/GET/hello") ].

Definition http_down : list io -> string -> result pyval :=
  fun _ _ => Raise (RequestException "connection refused").

Definition jwt_accepts (claims : pydict) : list io -> string -> pyval -> result pydict :=
  fun _ _ _ => Ok claims.

Definition jwt_key_missing : list io -> string -> pyval -> result pydict :=
  fun _ _ _ => Raise (JoseError "Key not found").

Definition vp_allows : list io -> pydict -> result pydict :=
  fun _ _ => Ok [("decision", VStr "ALLOW")].

(** ** Import time (authorizer.py, module level)

    The module checks its four environment variables, reads them, fetches
    the key set into [JWKS_CACHE] and builds its two clients. *)









(** ** The greeting endpoint (lambda/hello/hello.py) *)

Module Hello.

(** [x.get(k, default)] on any value: only a dict has [get]. *)
Definition get (x : pyval) (k : string) (default : pyval) : result pyval :=
  match x with
  | VDict d => Ok (dict_get_default d k default)
  | _ => Raise (AttributeError "object has no attribute 'get'")
  end.

Section Handler.

(** [json.dumps], and the text an f-string gives a value that is not a
    string. *)
Variable json_dumps : pyval -> string.
Variable format_value : pyval -> string.

Definition format (v : pyval) : string :=
  match v with
  | VStr s => s
  | _ => format_value v
  end.

Definition lambda_handler (event : pydict) : result pydict :=
  match get (dict_get_default event "requestContext" (VDict [])) "authorizer" (VDict []) with
  | Raise e => Raise e
  | Ok auth_context =>
      match get auth_context "username" (VStr "guest") with
      | Raise e => Raise e
      | Ok username =>
          Ok [ ("statusCode", VInt 200);
               ("headers",
                 VDict [ ("Content-Type", VStr "application/json");
                         ("Access-Control-Allow-Origin", VStr "*") ]);
               ("body",
                 VStr (json_dumps
                         (VDict [ ("message",
                                   VStr ("Hello " ++ format username
                                           ++ ", authorization succeeded!")) ]))) ]
      end
  end.

End Handler.

End Hello.

(** ** The deployment entry point (app.py)

    [main] reads five context values and refuses to go on when one of them
    is missing; the stacks it then builds are CDK's. *)

Module App.

(** [bool(v)] *)
Definition truthy (v : pyval) : bool :=
  match v with
  | VNone => false
  | VBool b => b
  | VInt n => negb (Nat.eqb n 0)
  | VStr s => negb (String.eqb s "")
  | VList l => match l with [] => false | _ => true end
  | VDict d => match d with [] => false | _ => true end
  end.

Record context_values : Type := mkContext {
  project_name : pyval;
  region : pyval;
  domain_name : pyval;
  certificate_arn : pyval;
  account : pyval
}.

Definition must_set (key : string) : exn :=
  ValueError ("Must set '" ++ key ++ "' in cdk.json under 'context." ++ key ++ "'").

(** The first part of [main]: [try_get_context] answers [None] for a key
    that is not set. *)
Definition main_context (try_get_context : string -> pyval) : result context_values :=
  let project_name := try_get_context "projectName" in
  if negb (truthy project_name) then Raise (must_set "projectName") else
  let region := try_get_context "awsRegion" in
  if negb (truthy region) then Raise (must_set "awsRegion") else
  let domain_name := try_get_context "domainName" in
  if negb (truthy domain_name) then Raise (must_set "domainName") else
  let certificate_arn := try_get_context "certificateArn" in
  if negb (truthy certificate_arn) then Raise (must_set "certificateArn") else
  let account := try_get_context "account" in
  if negb (truthy account) then Raise (must_set "account") else
  Ok (mkContext project_name region domain_name certificate_arn account).

Definition context_keys : list string :=
  ["projectName"; "awsRegion"; "domainName"; "certificateArn"; "account"].

End App.

(** * Properties *)

(** ** Dicts *)

Lemma dict_get_set_same (d : pydict) (k : string) (v : pyval) :
  dict_get (dict_set d k v) k = Some v.
Proof.
  induction d as [|[k' v'] d IH]; simpl.
  - now rewrite String.eqb_refl.
  - destruct (String.eqb k' k) eqn:Hk; simpl; rewrite Hk; auto.
Qed.

Lemma dict_get_set_other (d : pydict) (k k0 : string) (v : pyval) :
  k0 <> k -> dict_get (dict_set d k v) k0 = dict_get d k0.
Proof.
  intros Hne. induction d as [|[k' v'] d IH]; simpl.
  - destruct (String.eqb k k0) eqn:Hk; auto.
    apply String.eqb_eq in Hk. congruence.
  - destruct (String.eqb k' k) eqn:Hk; simpl.
    + apply String.eqb_eq in Hk. subst k'.
      destruct (String.eqb k k0) eqn:Hk0; auto.
      apply String.eqb_eq in Hk0. congruence.
    + now rewrite IH.
Qed.

Lemma dict_get_set (d : pydict) (k k0 : string) (v : pyval) :
  dict_get (dict_set d k v) k0 = if String.eqb k k0 then Some v else dict_get d k0.
Proof.
  destruct (String.eqb k k0) eqn:Hk.
  - apply String.eqb_eq in Hk. subst. apply dict_get_set_same.
  - apply String.eqb_neq in Hk. apply dict_get_set_other. congruence.
Qed.


Lemma dict_get_None_not_key (d : pydict) (k : string) :
  dict_get d k = None <-> ~ In k (dict_keys d).
Proof.
  induction d as [|[k' v'] d IH]; simpl.
  - tauto.
  - destruct (String.eqb k' k) eqn:Hk.
    + apply String.eqb_eq in Hk. split; [discriminate | intros H; exfalso; auto].
    + apply String.eqb_neq in Hk. rewrite IH. tauto.
Qed.

Lemma dict_get_last_wf (d : pydict) (k : string) :
  dict_wf d -> dict_get_last d k = dict_get d k.
Proof.
  unfold dict_wf. induction d as [|[k' v'] d IH]; simpl; intros Hwf; auto.
  inversion Hwf as [|? ? Hnotin Hnd]; subst.
  rewrite IH by assumption.
  destruct (String.eqb k' k) eqn:Hk.
  - apply String.eqb_eq in Hk. subst k'.
    apply dict_get_None_not_key in Hnotin. now rewrite Hnotin.
  - now destruct (dict_get d k).
Qed.

(** What a loop of assignments [acc[f(k)] = g(v)] leaves under each key. *)
Lemma fold_set_lookup (g : pyval -> pyval) (items acc : pydict) (k : string) :
  dict_get (fold_left (fun a kv => dict_set a (fst kv) (g (snd kv))) items acc) k =
  match dict_get_last items k with
  | Some v => Some (g v)
  | None => dict_get acc k
  end.
Proof.
  revert acc. induction items as [|[k' v'] items IH]; intros acc; simpl; auto.
  rewrite IH. destruct (dict_get_last items k); auto.
  rewrite dict_get_set. now destruct (String.eqb k' k).
Qed.


Lemma extract_custom_attributes_items (claims : pydict) :
  extract_custom_attributes claims =
  fold_left (fun a kv => dict_set a (fst kv) (snd kv)) (custom_items claims) [].
Proof.
  unfold extract_custom_attributes, custom_items.
  generalize (@nil (string * pyval)) as acc.
  induction claims as [|[k v] claims IH]; intros acc; simpl; auto.
  destruct (startswith k "custom:"); simpl; apply IH.
Qed.

(** Each key of the extracted attributes holds the value of the last claim
    that is assigned to it. *)
Lemma extract_custom_attributes_lookup (claims : pydict) (k : string) :
  dict_get (extract_custom_attributes claims) k = dict_get_last (custom_items claims) k.
Proof.
  rewrite extract_custom_attributes_items.
  rewrite (fold_set_lookup (fun v => v)). simpl.
  now destruct (dict_get_last (custom_items claims) k).
Qed.

(** ** The policy document (generate_policy) *)

(** C7: [generate_policy] is a total function; for every principal id (the
    [unknown] sentinel included), effect, resource and optional context
    (absent included) the policy has exactly one statement, whose effect is
    the given one, whose action is [execute-api:Invoke] and whose resource is
    the given one; the context holds the principal id under [username], and
    every other key of a context supplied by the caller is kept as it was. *)
Theorem generate_policy_single_statement
  (principal : pyval) (eff : string) (resource : pyval) (context_data : option pydict) :
  let policy := generate_policy principal eff resource context_data in
  let supplied := match context_data with Some c => c | None => [] end in
  dict_get policy "principalId" = Some principal /\
  policy_statements policy =
    Some [VDict [("Action", VStr "execute-api:Invoke");
                 ("Effect", VStr eff);
                 ("Resource", resource)]] /\
  policy_effect policy = Some (VStr eff) /\
  (exists c,
     policy_context policy = Some c /\
     dict_get c "username" = Some principal /\
     (forall k, k <> "username" -> dict_get c k = dict_get supplied k)) /\
  policy_context (generate_policy (VStr "unknown") eff resource None)
    = Some [("username", VStr "unknown")].
Proof.
  cbv zeta. repeat split.
  exists (dict_set (match context_data with Some c => c | None => [] end)
                   "username" principal).
  repeat split.
  - apply dict_get_set_same.
  - intros k Hk. now apply dict_get_set_other.
Qed.

(** ** The authorization request (build_auth_request) *)

Lemma request_attributes_build ps pid g custom a r :
  request_attributes (build_auth_request ps pid g custom a r)
  = Some (principal_attributes g custom).
Proof. reflexivity. Qed.

Lemma principal_attributes_lookup (g : pyval) (custom : pydict) (k : string) :
  dict_get (principal_attributes g custom) k =
  match dict_get_last custom k with
  | Some v => Some (wrap_value v)
  | None => if String.eqb "group" k then Some (wrap_value g) else None
  end.
Proof.
  unfold principal_attributes. rewrite (fold_set_lookup wrap_value).
  destruct (dict_get_last custom k); auto.
Qed.

Lemma dict_get_last_In (d : pydict) (k : string) (v : pyval) :
  In (k, v) d -> exists v', dict_get_last d k = Some v'.
Proof.
  induction d as [|[k' v'] d IH]; simpl; [tauto|].
  intros [Heq | Hin].
  - inversion Heq; subst. rewrite String.eqb_refl.
    destruct (dict_get_last d k); eauto.
  - destruct (IH Hin) as [x Hx]. rewrite Hx. eauto.
Qed.


(** C9: in [build_auth_request] the custom attributes are assigned after
    [group]: the attribute map always has the key [group]; a custom attribute
    named [group] replaces the group value supplied, and without one the
    supplied value stays; a claim [custom:group] is extracted to such a custom
    attribute. *)
Theorem custom_group_overwrites_group
  (policy_store_id : string) (principal group_value : pyval)
  (custom_attributes : pydict) (action_id resource_id : string)
  (Hwf : dict_wf custom_attributes) :
  let request := build_auth_request policy_store_id principal group_value
                                    custom_attributes action_id resource_id in
  exists attributes,
    request_attributes request = Some attributes /\
    (exists w, dict_get attributes "group" = Some w) /\
    (forall v, dict_get custom_attributes "group" = Some v ->
               dict_get attributes "group" = Some (wrap_value v)) /\
    (dict_get custom_attributes "group" = None ->
               dict_get attributes "group" = Some (wrap_value group_value)) /\
    (forall claims v, In ("custom:group", v) claims ->
       exists v', dict_get (extract_custom_attributes claims) "group" = Some v').
Proof.
  cbv zeta. exists (principal_attributes group_value custom_attributes).
  split; [reflexivity|].
  assert (Hl : dict_get (principal_attributes group_value custom_attributes) "group" =
               match dict_get custom_attributes "group" with
               | Some v => Some (wrap_value v)
               | None => Some (wrap_value group_value)
               end).
  { rewrite principal_attributes_lookup, dict_get_last_wf by assumption.
    reflexivity. }
  repeat split.
  - rewrite Hl. destruct (dict_get custom_attributes "group"); eauto.
  - intros v Hv. now rewrite Hl, Hv.
  - intros Hn. now rewrite Hl, Hn.
  - intros claims v Hin. rewrite extract_custom_attributes_lookup.
    apply (dict_get_last_In _ _ v). unfold custom_items.
    apply in_map_iff. exists ("custom:group", v). split; [reflexivity|].
    apply filter_In. split; [assumption | reflexivity].
Qed.

(** A token with group [admin] and a claim [custom:group] of [root]: the
    query carries [root]. *)
Lemma custom_group_overwrites_group_witness :
  exists attributes,
    request_attributes
      (build_auth_request "store" (VStr "alice") (VStr "admin")
         (extract_custom_attributes
            [("cognito:groups", VList [VStr "admin"]); ("custom:group", VStr "root")])
         "access" "my-resource") = Some attributes /\
    dict_get attributes "group" = Some (wrap_value (VStr "root")).
Proof.
  assert (Hwf : dict_wf (extract_custom_attributes
            [("cognito:groups", VList [VStr "admin"]); ("custom:group", VStr "root")])).
  { vm_compute. repeat constructor; simpl; intuition discriminate. }
  destruct (custom_group_overwrites_group "store" (VStr "alice") (VStr "admin")
              _ "access" "my-resource" Hwf) as [attributes [Ha [_ [Hg _]]]].
  exists attributes. split; [exact Ha | apply Hg; reflexivity].
Defined.

(** ** The decision (evaluate_policy) *)

(** C6: [evaluate_policy] returns, never raises, and returns [Allow] exactly
    when the engine answered with a response whose [decision] is the string
    [ALLOW]; an explicit other decision, a response without the field or with
    another value in it, a [ClientError] and any other exception all give
    [Deny]. *)
Theorem evaluate_policy_fail_closed (E : environment) (auth_request : pydict) (w : world) :
  exists eff,
    evaluate_policy E auth_request w =
      (Ok eff, mkWorld (JWKS_CACHE w) (history w ++ [IoIsAuthorized auth_request])) /\
    (eff = "Allow" \/ eff = "Deny") /\
    (eff = "Allow" <->
       exists response,
         vp_is_authorized E (history w) auth_request = Ok response /\
         dict_get response "decision" = Some (VStr "ALLOW")) /\
    (forall e, vp_is_authorized E (history w) auth_request = Raise e -> eff = "Deny").
Proof.
  unfold evaluate_policy, try_except, bind, call, ret. simpl.
  destruct (vp_is_authorized E (history w) auth_request) as [response | e] eqn:Hr.
  - unfold dict_get_default, eq_str, ne_str.
    assert (Hdeny : dict_get response "decision" <> Some (VStr "ALLOW") ->
                    ~ exists r, Ok response = Ok r /\
                                dict_get r "decision" = Some (VStr "ALLOW")).
    { intros Hne [r [Hr' Hd']]. inversion Hr'; subst. contradiction. }
    destruct (dict_get response "decision") as [[|b|n|s|l|d]|] eqn:Hd; simpl;
      try (exists "Deny"; split; [reflexivity|]; split; [now right|];
           split; [split; [discriminate | intros H; exfalso; apply Hdeny; [discriminate | exact H]]
                  | discriminate]).
    destruct (String.eqb s "ALLOW") eqn:Hs; simpl.
    + apply String.eqb_eq in Hs. subst s.
      exists "Allow". split; [reflexivity|]. split; [now left|].
      split; [split; eauto | discriminate].
    + apply String.eqb_neq in Hs.
      exists "Deny". split; [reflexivity|]. split; [now right|].
      split; [split; [discriminate|] | discriminate].
      intros H. exfalso. apply Hdeny; [congruence | exact H].
  - exists "Deny".
    split; [destruct e; reflexivity|]. split; [now right|].
    split; [split; [discriminate | intros [r [Hr' _]]; discriminate] | reflexivity].
Qed.

(** ** Attribute extraction (extract_custom_attributes) *)

(** Every extracted attribute comes from a claim whose name starts with
    [custom:], under the name [replace] makes of it, with the claim's value. *)
Lemma extract_custom_attributes_sound (claims : pydict) (k : string) (v : pyval) :
  dict_get (extract_custom_attributes claims) k = Some v ->
  exists k0, In (k0, v) claims /\ startswith k0 "custom:" = true /\
             k = str_replace k0 "custom:" "".
Proof.
  rewrite extract_custom_attributes_lookup. unfold custom_items.
  induction claims as [|[k0 v0] claims IH]; simpl; [discriminate|].
  destruct (startswith k0 "custom:") eqn:Hs; simpl.
  - destruct (dict_get_last _ k) eqn:Hl.
    + intros H. destruct (IH H) as [k1 [Hin [Hs1 Hk]]]. exists k1. auto.
    + destruct (String.eqb (str_replace k0 "custom:" "") k) eqn:Hk; [|discriminate].
      intros H. inversion H; subst. apply String.eqb_eq in Hk.
      exists k0. auto.
  - intros H. destruct (IH H) as [k1 [Hin [Hs1 Hk]]]. exists k1. auto.
Qed.

(** C4: the claim [custom:department] with value [finance] gives the key
    [department] with that value, as the spec says.  For the claim
    [custom:custom:dept], the name Cognito gives a custom attribute called
    [custom:dept], the code gives the key [dept]: [replace] removes every
    occurrence of the prefix, where stripping the leading one gives
    [custom:dept]. *)
Theorem extract_custom_attributes_inner_prefix :
  extract_custom_attributes [("aud", VStr "client"); ("custom:department", VStr "finance")]
    = [("department", VStr "finance")] /\
  extract_custom_attributes [("custom:custom:dept", VStr "finance")]
    = [("dept", VStr "finance")] /\
  extract_custom_attributes_spec [("custom:custom:dept", VStr "finance")]
    = [("custom:dept", VStr "finance")] /\
  extract_custom_attributes
    [("custom:dept", VStr "sales"); ("custom:custom:dept", VStr "finance")]
    = [("dept", VStr "finance")].
Proof. repeat split. Qed.

(** ** Token verification and the key-set cache *)

Lemma fetch_jwks_unfold (E : environment) (w : world) :
  let url := jwks_url (REGION E) (USER_POOL_ID E) in
  fetch_jwks E (REGION E) (USER_POOL_ID E) w =
  (fetched (requests_get_json E (history w) url),
   mkWorld (JWKS_CACHE w) (history w ++ [IoFetch url])).
Proof.
  cbv zeta. unfold fetch_jwks, try_except, call, fetched, ret. simpl.
  destruct (requests_get_json E (history w) _) as [j | e]; [reflexivity|].
  destruct e; reflexivity.
Qed.

Lemma refresh_jwks_and_retry_unfold (E : environment) (token msg : string) (w : world) :
  let url := jwks_url (REGION E) (USER_POOL_ID E) in
  let h1 := history w ++ [IoFetch url] in
  refresh_jwks_and_retry E token msg w =
  if contains "Key not found" msg then
    match fetched (requests_get_json E (history w) url) with
    | Ok j => (jwt_decode E h1 token j, mkWorld j (h1 ++ [IoDecode token j]))
    | Raise e => (Raise e, mkWorld (JWKS_CACHE w) h1)
    end
  else (Raise (JoseError msg), w).
Proof.
  cbv zeta. unfold refresh_jwks_and_retry.
  destruct (contains "Key not found" msg); [|reflexivity].
  unfold bind at 1. rewrite fetch_jwks_unfold.
  destruct (fetched _) as [j | e]; reflexivity.
Qed.

Lemma verified_claims_unfold (E : environment) (token : string) (w : world) :
  let url := jwks_url (REGION E) (USER_POOL_ID E) in
  let h1 := history w ++ [IoDecode token (JWKS_CACHE w)] in
  let h2 := h1 ++ [IoFetch url] in
  verified_claims E token w =
  match jwt_decode E (history w) token (JWKS_CACHE w) with
  | Ok claims => (Ok claims, mkWorld (JWKS_CACHE w) h1)
  | Raise e =>
      if key_missing e then
        match fetched (requests_get_json E h1 url) with
        | Ok j => (jwt_decode E h2 token j, mkWorld j (h2 ++ [IoDecode token j]))
        | Raise e' => (Raise e', mkWorld (JWKS_CACHE w) h2)
        end
      else (Raise e, mkWorld (JWKS_CACHE w) h1)
  end.
Proof.
  cbv zeta.
  unfold verified_claims, try_except, bind, read_cache, decode_and_validate_token, call.
  simpl.
  destruct (jwt_decode E (history w) token (JWKS_CACHE w)) as [claims | e];
    [reflexivity|].
  destruct e; try reflexivity.
  rewrite refresh_jwks_and_retry_unfold. simpl.
  destruct (contains "Key not found" msg); reflexivity.
Qed.

(** [validate_claims] passes exactly when both claims are the expected
    strings; it leaves the process as it is. *)
Lemma validate_claims_spec (claims : pydict) (client_id region user_pool_id : string)
      (w : world) :
  (dict_get claims "aud" = Some (VStr client_id) /\
   dict_get claims "iss" = Some (VStr (expected_issuer region user_pool_id)) /\
   validate_claims claims client_id region user_pool_id w = (Ok tt, w))
  \/
  ((dict_get claims "aud" <> Some (VStr client_id) \/
    dict_get claims "iss" <> Some (VStr (expected_issuer region user_pool_id))) /\
   exists msg,
     validate_claims claims client_id region user_pool_id w = (Raise (ValueError msg), w)).
Proof.
  unfold validate_claims, dict_get_default, ne_str.
  destruct (dict_get claims "aud") as [[|b|n|s|l|d]|];
    try (right; split; [left; discriminate | eexists; reflexivity]).
  destruct (String.eqb s client_id) eqn:Ha; simpl.
  2:{ apply String.eqb_neq in Ha. right. split; [left; congruence | eexists; reflexivity]. }
  apply String.eqb_eq in Ha. subst s.
  destruct (dict_get claims "iss") as [[|b|n|s|l|d]|];
    try (right; split; [right; discriminate | eexists; reflexivity]).
  destruct (String.eqb s (expected_issuer region user_pool_id)) eqn:Hi; simpl.
  - apply String.eqb_eq in Hi. subst s. left. auto.
  - apply String.eqb_neq in Hi. right. split; [right; congruence | eexists; reflexivity].
Qed.

Lemma evaluate_policy_unfold (E : environment) (auth_request : pydict) (w : world) :
  evaluate_policy E auth_request w =
  (Ok (decision_of (vp_is_authorized E (history w) auth_request)),
   mkWorld (JWKS_CACHE w) (history w ++ [IoIsAuthorized auth_request])).
Proof.
  unfold evaluate_policy, try_except, bind, call, ret, decision_of. simpl.
  destruct (vp_is_authorized E (history w) auth_request) as [r | e]; [reflexivity|].
  destruct e; reflexivity.
Qed.

Lemma decision_of_allow_or_deny (answer : result pydict) :
  decision_of answer = "Allow" \/ decision_of answer = "Deny".
Proof.
  unfold decision_of. destruct answer as [r | e]; [|now right].
  destruct (eq_str _ _); auto.
Qed.

(** ** The handler (lambda_handler) *)

(** The handler, stage by stage. *)
Lemma lambda_handler_unfold (E : environment) (event : pydict) (w : world) :
  lambda_handler E event w =
  match bearer_token event with
  | Raise e => (Raise e, w)
  | Ok token =>
      match verified_claims E token w with
      | (Raise e, w1) =>
          (handled e (VStr "unknown") (dict_get_default event "methodArn" (VStr "*")), w1)
      | (Ok claims, w1) => authorized_from E event claims w1
      end
  end.
Proof.
  unfold authorized_from, lambda_handler, lift, handled, group_value_of, query_of.
  unfold bind at 1.
  destruct (bearer_token event) as [token | e]; [|reflexivity].
  unfold bind at 1. unfold try_block. unfold bind at 1.
  destruct (verified_claims E token w) as [[claims | e] w1].
  - unfold bind at 1.
    destruct (validate_claims claims (CLIENT_ID E) (REGION E) (USER_POOL_ID E) w1)
      as [[u | e] w1'].
    + unfold ret at 1. simpl.
      destruct (next_iter _ _) as [g | e].
      * rewrite evaluate_policy_unfold. reflexivity.
      * destruct e; reflexivity.
    + destruct e; reflexivity.
  - destruct e; reflexivity.
Qed.

Lemma next_iter_raises (x default : pyval) (e : exn) :
  next_iter x default = Raise e -> absorbed e = false.
Proof.
  destruct x as [|b|n|s|l|d]; simpl; try (intros H; inversion H; reflexivity).
  - destruct s; discriminate.
  - destruct l; discriminate.
  - destruct d as [|[k v] d]; discriminate.
Qed.

Lemma generate_policy_effect (principal : pyval) (eff : string) (resource : pyval) :
  policy_effect (generate_policy principal eff resource None) = Some (VStr eff).
Proof. reflexivity. Qed.

(** What happens once the claims are at hand: the engine is called at most
    once and nothing else; the key set stays; the only exception that gets
    out is the one of a group claim that cannot be iterated. *)
Lemma authorized_from_spec (E : environment) (event claims : pydict) (w1 : world) :
  let out := authorized_from E event claims w1 in
  let resource := dict_get_default event "methodArn" (VStr "*") in
  JWKS_CACHE (snd out) = JWKS_CACHE w1 /\
  (exists rest, history (snd out) = history w1 ++ rest /\
                count_fetch rest = 0 /\ count_decode rest = 0 /\
                count_is_authorized rest <= 1) /\
  (forall e, fst out = Raise e -> absorbed e = false /\ group_value_of claims = Raise e) /\
  (forall policy, fst out = Ok policy ->
     exists principal eff,
       policy = generate_policy principal eff resource None /\
       (eff = "Allow" \/ eff = "Deny")).
Proof.
  cbv zeta. unfold authorized_from.
  destruct (validate_claims_spec claims (CLIENT_ID E) (REGION E) (USER_POOL_ID E) w1)
    as [[_ [_ Hv]] | [_ [msg Hv]]]; rewrite Hv; simpl.
  - destruct (group_value_of claims) as [g | e] eqn:Hg; simpl.
    + split; [reflexivity|]. split; [eexists; repeat split; simpl; auto|].
      split; [discriminate|].
      intros policy H. inversion H. do 2 eexists. split; [reflexivity|].
      apply decision_of_allow_or_deny.
    + pose proof (next_iter_raises _ _ _ Hg) as Ha. unfold handled. rewrite Ha. simpl.
      split; [reflexivity|].
      split; [exists []; rewrite app_nil_r; repeat split; auto|].
      split; [intros e' H; inversion H; subst; auto | discriminate].
  - split; [reflexivity|].
    split; [exists []; rewrite app_nil_r; repeat split; auto|].
    split; [discriminate|].
    intros policy H. inversion H. do 2 eexists. split; [reflexivity | now right].
Qed.

(** C1: the handler is meant to answer every failure with a [Deny] policy
    (its comment says "Default to Deny on any failure", its docstring that it
    returns an IAM policy, and [evaluate_policy] beside it catches every
    exception), and it does not.  An event whose [authorizationToken] is JSON
    [null] makes [token.startswith] raise [AttributeError] before the [try]
    block, and the handler raises instead of denying.  The [try] block has
    the same gap: its [except] clause names [JoseError] and [ValueError]
    only, so an exception of any other class raised by token verification
    gets out too, where a [JoseError] at the same place gives [Deny]. *)
Theorem lambda_handler_not_fail_closed :
  lambda_handler (sample_env http_down (jwt_accepts sample_claims) vp_allows)
                 (sample_event VNone) sample_world
  = (Raise (AttributeError "object has no attribute 'startswith'"), sample_world) /\
  lambda_handler
    (sample_env http_down
       (fun _ _ _ => Raise (OtherException "RecursionError"
                              "maximum recursion depth exceeded"))
       vp_allows)
    (sample_event (VStr "Bearer abc")) sample_world
  = (Raise (OtherException "RecursionError" "maximum recursion depth exceeded"),
     mkWorld sample_jwks [IoDecode "abc" sample_jwks]) /\
  lambda_handler
    (sample_env http_down (fun _ _ _ => Raise (JoseError "bad_signature: ")) vp_allows)
    (sample_event (VStr "Bearer abc")) sample_world
  = (Ok (deny_policy (sample_event (VStr "Bearer abc"))),
     mkWorld sample_jwks [IoDecode "abc" sample_jwks]).
Proof. repeat split. Qed.

(** Where the exceptions that get out of the handler come from: whenever it
    returns, the policy is one of [generate_policy] with effect [Allow] or
    [Deny]; an exception it raises is neither a [JoseError] nor a
    [ValueError] and was raised by reading the token, by token verification
    with its refresh, or by reading the group claim. *)
Theorem lambda_handler_policy_or_unabsorbed
  (E : environment) (event : pydict) (w : world) :
  let resource := dict_get_default event "methodArn" (VStr "*") in
  let r := fst (lambda_handler E event w) in
  (forall policy, r = Ok policy ->
     exists principal eff,
       policy = generate_policy principal eff resource None /\
       (eff = "Allow" \/ eff = "Deny") /\
       policy_effect policy = Some (VStr eff)) /\
  (forall e, r = Raise e ->
     absorbed e = false /\
     (bearer_token event = Raise e \/
      exists token, bearer_token event = Ok token /\
        (fst (verified_claims E token w) = Raise e \/
         exists claims, fst (verified_claims E token w) = Ok claims /\
                        group_value_of claims = Raise e))) /\
  (forall token e,
     bearer_token event = Ok token ->
     fst (verified_claims E token w) = Raise e ->
     absorbed e = true ->
     r = Ok (deny_policy event)).
Proof.
  cbv zeta. rewrite lambda_handler_unfold.
  destruct (bearer_token event) as [token | e0] eqn:Hb.
  - destruct (verified_claims E token w) as [[claims | e1] w1] eqn:Hv.
    + destruct (authorized_from_spec E event claims w1) as [_ [_ [Hraise Hok]]].
      split; [|split].
      * intros policy Hp. destruct (Hok policy Hp) as [pr [eff [Heq Heff]]].
        exists pr, eff. subst policy. auto using generate_policy_effect.
      * intros e He. destruct (Hraise e He) as [Ha Hg].
        split; [assumption|]. right. exists token. split; [reflexivity|].
        right. exists claims. rewrite Hv. auto.
      * intros token' e Ht He. inversion Ht; subst token'.
        rewrite Hv in He. discriminate.
    + unfold handled. simpl. split; [|split].
      * destruct (absorbed e1); [|discriminate].
        intros policy Hp. inversion Hp.
        exists (VStr "unknown"), "Deny". auto.
      * destruct (absorbed e1) eqn:Ha; [discriminate|].
        intros e He. inversion He; subst. split; [assumption|].
        right. exists token. rewrite Hv. auto.
      * intros token' e Ht He Ha. inversion Ht; subst token'.
        rewrite Hv in He. simpl in He. inversion He; subst.
        now rewrite Ha.
  - simpl. split; [discriminate|]. split.
    + intros e He. inversion He; subst. split; [|now left].
      unfold bearer_token in Hb.
      destruct (dict_get_default event "authorizationToken" (VStr ""));
        inversion Hb; reflexivity.
    + discriminate.
Qed.

(** ** Calls made during one evaluation *)

Lemma count_fetch_app (a b : list io) :
  count_fetch (a ++ b) = count_fetch a + count_fetch b.
Proof. unfold count_fetch. now rewrite filter_app, length_app. Qed.

Lemma count_decode_app (a b : list io) :
  count_decode (a ++ b) = count_decode a + count_decode b.
Proof. unfold count_decode. now rewrite filter_app, length_app. Qed.

Lemma count_is_authorized_app (a b : list io) :
  count_is_authorized (a ++ b) = count_is_authorized a + count_is_authorized b.
Proof. unfold count_is_authorized. now rewrite filter_app, length_app. Qed.

(** Verification calls the verifier once or twice and the identity provider
    at most once, never the engine; without a fetch the key set stays. *)
Lemma verified_claims_calls (E : environment) (token : string) (w : world) :
  let out := verified_claims E token w in
  exists calls,
    history (snd out) = history w ++ calls /\
    count_is_authorized calls = 0 /\
    count_fetch calls <= 1 /\
    count_decode calls <= 1 + count_fetch calls /\
    (count_fetch calls = 0 -> JWKS_CACHE (snd out) = JWKS_CACHE w).
Proof.
  cbv zeta. rewrite verified_claims_unfold.
  destruct (jwt_decode E (history w) token (JWKS_CACHE w)) as [claims | e].
  - exists [IoDecode token (JWKS_CACHE w)]. simpl. repeat split; auto.
  - destruct (key_missing e).
    + destruct (fetched _) as [j | e'].
      * exists [IoDecode token (JWKS_CACHE w);
                IoFetch (jwks_url (REGION E) (USER_POOL_ID E));
                IoDecode token j].
        simpl. rewrite <- !app_assoc. simpl.
        repeat split; auto. discriminate.
      * exists [IoDecode token (JWKS_CACHE w);
                IoFetch (jwks_url (REGION E) (USER_POOL_ID E))].
        simpl. rewrite <- !app_assoc. simpl.
        repeat split; auto.
    + exists [IoDecode token (JWKS_CACHE w)]. simpl. repeat split; auto.
Qed.

(** ** Claims validation before the engine *)

(** C3: when the claims decoded from the token have an [aud] that is not the
    string [CLIENT_ID], or an [iss] that is not the string built from
    [REGION] and [USER_POOL_ID], the handler returns the [Deny] policy and the
    policy engine is not called: the process is left as verification left it. *)
Theorem claims_mismatch_denies_before_engine
  (E : environment) (event : pydict) (w : world)
  (token : string) (claims : pydict) (w1 : world)
  (Htoken : bearer_token event = Ok token)
  (Hclaims : verified_claims E token w = (Ok claims, w1))
  (Hmismatch :
     dict_get claims "aud" <> Some (VStr (CLIENT_ID E)) \/
     dict_get claims "iss" <>
       Some (VStr (expected_issuer (REGION E) (USER_POOL_ID E)))) :
  lambda_handler E event w = (Ok (deny_policy event), w1) /\
  policy_effect (deny_policy event) = Some (VStr "Deny") /\
  count_is_authorized (history w1) = count_is_authorized (history w).
Proof.
  split; [|split; [reflexivity|]].
  - rewrite lambda_handler_unfold, Htoken, Hclaims. unfold authorized_from.
    destruct (validate_claims_spec claims (CLIENT_ID E) (REGION E) (USER_POOL_ID E) w1)
      as [[Ha [Hi _]] | [_ [msg Hv]]].
    + destruct Hmismatch; contradiction.
    + rewrite Hv. reflexivity.
  - destruct (verified_claims_calls E token w) as [calls [Hh [Hz _]]].
    rewrite Hclaims in Hh. simpl in Hh.
    rewrite Hh, count_is_authorized_app, Hz. lia.
Qed.

(** A verified token issued for another client: [Deny], although the
    engine would allow. *)
Lemma claims_mismatch_denies_before_engine_witness :
  let claims := [("aud", VStr "client-2");
                 ("iss", VStr "https://cognito-idp.eu-west-1.amazonaws.com/pool-1");
                 ("cognito:username", VStr "alice")] in
  let E := sample_env http_down (jwt_accepts claims) vp_allows in
  let event := sample_event (VStr "Bearer abc") in
  let w1 := mkWorld sample_jwks [IoDecode "abc" sample_jwks] in
  lambda_handler E event sample_world = (Ok (deny_policy event), w1) /\
  policy_effect (deny_policy event) = Some (VStr "Deny") /\
  count_is_authorized (history w1) = count_is_authorized (history sample_world).
Proof.
  cbv zeta.
  apply (claims_mismatch_denies_before_engine
           (sample_env http_down
              (jwt_accepts [("aud", VStr "client-2");
                            ("iss", VStr "https://cognito-idp.eu-west-1.amazonaws.com/pool-1");
                            ("cognito:username", VStr "alice")]) vp_allows)
           (sample_event (VStr "Bearer abc")) sample_world "abc"
           [("aud", VStr "client-2");
            ("iss", VStr "https://cognito-idp.eu-west-1.amazonaws.com/pool-1");
            ("cognito:username", VStr "alice")]
           (mkWorld sample_jwks [IoDecode "abc" sample_jwks])).
  - reflexivity.
  - reflexivity.
  - left. simpl. discriminate.
Defined.

(** ** The group value *)

Lemma dict_set_keys (d : pydict) (k k0 : string) (v : pyval) :
  In k0 (dict_keys (dict_set d k v)) <-> k0 = k \/ In k0 (dict_keys d).
Proof.
  induction d as [|[k' v'] d IH]; simpl.
  - intuition.
  - destruct (String.eqb k' k) eqn:Hk; simpl.
    + apply String.eqb_eq in Hk. subst k'. intuition.
    + rewrite IH. intuition.
Qed.

Lemma dict_set_wf (d : pydict) (k : string) (v : pyval) :
  dict_wf d -> dict_wf (dict_set d k v).
Proof.
  unfold dict_wf. induction d as [|[k' v'] d IH]; simpl; intros Hwf.
  - constructor; [simpl; tauto | constructor].
  - inversion Hwf as [|? ? Hnotin Hnd]; subst.
    destruct (String.eqb k' k) eqn:Hk; simpl.
    + now constructor.
    + apply String.eqb_neq in Hk. constructor; [|auto].
      fold (dict_keys (dict_set d k v)). rewrite dict_set_keys.
      intros [Heq | Hin]; [congruence | contradiction].
Qed.

Lemma extract_custom_attributes_wf (claims : pydict) :
  dict_wf (extract_custom_attributes claims).
Proof.
  unfold extract_custom_attributes.
  assert (Hacc : dict_wf []) by constructor.
  revert Hacc. generalize (@nil (string * pyval)) as acc.
  induction claims as [|[k v] claims IH]; intros acc Hacc; simpl; auto.
  destruct (startswith k "custom:"); auto using dict_set_wf.
Qed.

(** C5, as stated, fails: with the groups [admin], [staff] and a claim
    [custom:group] of [root], the group value is [admin] and the [group]
    attribute of the query sent to the engine is [root]. *)
Lemma group_value_replaced_by_custom_group :
  let claims := sample_claims ++ [("custom:group", VStr "root")] in
  let out := lambda_handler (sample_env http_down (jwt_accepts claims) vp_allows)
                            (sample_event (VStr "Bearer abc")) sample_world in
  group_value_of claims = Ok (VStr "admin") /\
  exists request attributes,
    history (snd out) = [IoDecode "abc" sample_jwks; IoIsAuthorized request] /\
    policy_effect (match fst out with Ok p => p | Raise _ => [] end)
      = Some (VStr "Allow") /\
    request_attributes request = Some attributes /\
    dict_get attributes "group" = Some (wrap_value (VStr "root")) /\
    dict_get attributes "group" <> Some (wrap_value (VStr "admin")).
Proof.
  cbv zeta. split; [reflexivity|].
  do 2 eexists. repeat split. discriminate.
Qed.

(** C5, amended: for claims that passed validation, the group value carried
    into the query is the first entry of [cognito:groups] when that claim is
    present and not empty (the first element of a list; iteration gives the
    first character of a string and the first key of a dict), and [Unknown]
    when the claim is absent or empty; the handler hands that value unchanged
    to the query builder, and it is the [group] attribute of the principal in
    the query sent to the engine, except that a custom attribute extracted
    under the name [group] takes its place there. *)
Theorem group_value_into_query
  (E : environment) (event : pydict) (w : world)
  (token : string) (claims : pydict) (w1 : world)
  (Htoken : bearer_token event = Ok token)
  (Hclaims : verified_claims E token w = (Ok claims, w1))
  (Haud : dict_get claims "aud" = Some (VStr (CLIENT_ID E)))
  (Hiss : dict_get claims "iss" =
          Some (VStr (expected_issuer (REGION E) (USER_POOL_ID E)))) :
  (dict_get claims "cognito:groups" = None ->
     group_value_of claims = Ok (VStr "Unknown")) /\
  (dict_get claims "cognito:groups" = Some (VList []) ->
     group_value_of claims = Ok (VStr "Unknown")) /\
  (forall g rest, dict_get claims "cognito:groups" = Some (VList (g :: rest)) ->
     group_value_of claims = Ok g) /\
  (dict_get claims "cognito:groups" = Some (VStr "") \/
   dict_get claims "cognito:groups" = Some (VDict []) ->
     group_value_of claims = Ok (VStr "Unknown")) /\
  (forall c rest, dict_get claims "cognito:groups" = Some (VStr (String c rest)) ->
     group_value_of claims = Ok (VStr (String c ""))) /\
  (forall k v rest, dict_get claims "cognito:groups" = Some (VDict ((k, v) :: rest)) ->
     group_value_of claims = Ok (VStr k)) /\
  (forall g, group_value_of claims = Ok g ->
     let request := query_of E claims g in
     history (snd (lambda_handler E event w)) = history w1 ++ [IoIsAuthorized request] /\
     request =
       build_auth_request (POLICY_STORE_ID E)
         (dict_get_default claims "cognito:username" (VStr "unknown")) g
         (extract_custom_attributes claims) "access" "my-resource" /\
     exists attributes,
       request_attributes request = Some attributes /\
       (dict_get (extract_custom_attributes claims) "group" = None ->
          dict_get attributes "group" = Some (wrap_value g)) /\
       (forall v, dict_get (extract_custom_attributes claims) "group" = Some v ->
          dict_get attributes "group" = Some (wrap_value v))) /\
  (forall request,
     In (IoIsAuthorized request)
        (skipn (List.length (history w1)) (history (snd (lambda_handler E event w)))) ->
     exists g, group_value_of claims = Ok g /\ request = query_of E claims g).
Proof.
  assert (Hh : lambda_handler E event w =
               match group_value_of claims with
               | Raise e =>
                   (handled e (dict_get_default claims "cognito:username" (VStr "unknown"))
                            (dict_get_default event "methodArn" (VStr "*")), w1)
               | Ok g =>
                   (Ok (generate_policy
                          (dict_get_default claims "cognito:username" (VStr "unknown"))
                          (decision_of (vp_is_authorized E (history w1) (query_of E claims g)))
                          (dict_get_default event "methodArn" (VStr "*")) None),
                    mkWorld (JWKS_CACHE w1)
                            (history w1 ++ [IoIsAuthorized (query_of E claims g)]))
               end).
  { rewrite lambda_handler_unfold, Htoken, Hclaims. unfold authorized_from.
    destruct (validate_claims_spec claims (CLIENT_ID E) (REGION E) (USER_POOL_ID E) w1)
      as [[_ [_ Hv]] | [[Hm | Hm] _]]; try contradiction.
    rewrite Hv. reflexivity. }
  assert (Hskip : forall (a b : list io), skipn (List.length a) (a ++ b) = b).
  { intros a b. induction a as [|x a IH]; simpl; auto. }
  split; [|split; [|split; [|split; [|split; [|split; [|split]]]]]].
  - intros H. unfold group_value_of, dict_get_default. now rewrite H.
  - intros H. unfold group_value_of, dict_get_default. now rewrite H.
  - intros g rest H. unfold group_value_of, dict_get_default. now rewrite H.
  - intros [H | H]; unfold group_value_of, dict_get_default; now rewrite H.
  - intros c rest H. unfold group_value_of, dict_get_default. now rewrite H.
  - intros k v rest H. unfold group_value_of, dict_get_default. now rewrite H.
  - intros g Hg. cbv zeta. rewrite Hh, Hg. simpl.
    split; [reflexivity|]. split; [reflexivity|].
    exists (principal_attributes g (extract_custom_attributes claims)).
    split; [reflexivity|].
    rewrite principal_attributes_lookup,
            (dict_get_last_wf _ _ (extract_custom_attributes_wf claims)).
    split; [intros H; rewrite H; reflexivity | intros v H; rewrite H; reflexivity].
  - intros request. rewrite Hh.
    destruct (group_value_of claims) as [g | e]; simpl.
    + rewrite Hskip. intros [H | []]. inversion H. eauto.
    + rewrite <- (app_nil_r (history w1)) at 2. rewrite Hskip. intros [].
Qed.

(** Groups [admin], [staff] and no custom attribute named [group]: the
    query carries [admin]. *)
Lemma group_value_into_query_witness :
  let E := sample_env http_down (jwt_accepts sample_claims) vp_allows in
  group_value_of sample_claims = Ok (VStr "admin") /\
  exists attributes,
    request_attributes (query_of E sample_claims (VStr "admin")) = Some attributes /\
    dict_get attributes "group" = Some (wrap_value (VStr "admin")).
Proof.
  cbv zeta.
  destruct (group_value_into_query
              (sample_env http_down (jwt_accepts sample_claims) vp_allows)
              (sample_event (VStr "Bearer abc")) sample_world "abc" sample_claims
              (mkWorld sample_jwks [IoDecode "abc" sample_jwks])
              eq_refl eq_refl eq_refl eq_refl)
    as [_ [_ [Hfirst [_ [_ [_ [Hquery _]]]]]]].
  split; [apply (Hfirst _ [VStr "staff"]); reflexivity|].
  destruct (Hquery (VStr "admin") eq_refl) as [_ [_ [attributes [Ha [Hg _]]]]].
  exists attributes. split; [exact Ha | apply Hg; reflexivity].
Defined.

(** ** One refresh per evaluation *)

(** C2: one evaluation fetches the key set at most once and verifies at most
    once more than it fetches.  A first verification that fails without a
    missing key is surfaced after that single call.  One that fails with
    [Key not found] is followed by exactly one fetch; when the fetch returns
    a key set (the empty one after a [RequestException]), by exactly one
    retry with that set, and a failure of the retry is surfaced with no
    further fetch or verification; a fetch that raises is surfaced as well.
    A fetch happens only after such a failure.  Surfaced means: [Deny] for a
    [JoseError] or [ValueError], the exception itself otherwise. *)
Theorem at_most_one_refresh (E : environment) (event : pydict) (w : world) :
  let out := lambda_handler E event w in
  let resource := dict_get_default event "methodArn" (VStr "*") in
  let url := jwks_url (REGION E) (USER_POOL_ID E) in
  exists calls,
    history (snd out) = history w ++ calls /\
    count_fetch calls <= 1 /\
    count_decode calls <= 1 + count_fetch calls /\
    (forall token e,
       bearer_token event = Ok token ->
       jwt_decode E (history w) token (JWKS_CACHE w) = Raise e ->
       let first := IoDecode token (JWKS_CACHE w) in
       let h1 := history w ++ [first] in
       let h2 := h1 ++ [IoFetch url] in
       (key_missing e = false ->
          calls = [first] /\ fst out = handled e (VStr "unknown") resource) /\
       (key_missing e = true ->
          count_fetch calls = 1 /\
          (forall e', fetched (requests_get_json E h1 url) = Raise e' ->
             calls = [first; IoFetch url] /\
             fst out = handled e' (VStr "unknown") resource) /\
          (forall j, fetched (requests_get_json E h1 url) = Ok j ->
             count_decode calls = 2 /\
             (exists rest, calls = [first; IoFetch url; IoDecode token j] ++ rest /\
                           count_fetch rest = 0 /\ count_decode rest = 0) /\
             (forall e', jwt_decode E h2 token j = Raise e' ->
                calls = [first; IoFetch url; IoDecode token j] /\
                fst out = handled e' (VStr "unknown") resource)))) /\
    (count_fetch calls = 1 ->
       exists token e,
         bearer_token event = Ok token /\
         jwt_decode E (history w) token (JWKS_CACHE w) = Raise e /\
         key_missing e = true) /\
    (forall e, absorbed e = true ->
       handled e (VStr "unknown") resource = Ok (deny_policy event)).
Proof.
  cbv zeta. rewrite lambda_handler_unfold.
  assert (Hdeny : forall e, absorbed e = true ->
            handled e (VStr "unknown") (dict_get_default event "methodArn" (VStr "*"))
            = Ok (deny_policy event)).
  { intros e Ha. unfold handled. now rewrite Ha. }
  destruct (bearer_token event) as [token | e0] eqn:Hb.
  2:{ exists []. rewrite app_nil_r. simpl.
      repeat split; auto; try lia; try discriminate. }
  rewrite verified_claims_unfold.
  set (first := IoDecode token (JWKS_CACHE w)).
  set (url := jwks_url (REGION E) (USER_POOL_ID E)).
  destruct (jwt_decode E (history w) token (JWKS_CACHE w)) as [claims | e] eqn:Hd.
  - (* verified at once *)
    destruct (authorized_from_spec E event claims
                (mkWorld (JWKS_CACHE w) (history w ++ [first])))
      as [_ [[rest [Hh [Hf [Hdc _]]]] _]].
    simpl in Hh. exists (first :: rest).
    split; [rewrite Hh, <- app_assoc; reflexivity|].
    assert (Hcf : count_fetch (first :: rest) = 0)
      by (change (first :: rest) with ([first] ++ rest);
          rewrite count_fetch_app, Hf; reflexivity).
    assert (Hcd : count_decode (first :: rest) = 1)
      by (change (first :: rest) with ([first] ++ rest);
          rewrite count_decode_app, Hdc; reflexivity).
    rewrite Hcf, Hcd.
    split; [lia|]. split; [lia|]. split; [|split; [discriminate | exact Hdeny]].
    intros token' e Ht He. inversion Ht; subst token'. congruence.
  - destruct (key_missing e) eqn:Hk.
    + destruct (fetched (requests_get_json E (history w ++ [first]) url))
        as [j | e1] eqn:Hf.
      * (* refreshed, retried *)
        destruct (jwt_decode E ((history w ++ [first]) ++ [IoFetch url]) token j)
          as [claims | e2] eqn:Hd2.
        -- destruct (authorized_from_spec E event claims
                       (mkWorld j (((history w ++ [first]) ++ [IoFetch url])
                                     ++ [IoDecode token j])))
             as [_ [[rest [Hh [Hcf [Hcd _]]]] _]].
           simpl in Hh.
           exists ([first; IoFetch url; IoDecode token j] ++ rest).
           split; [rewrite Hh, <- !app_assoc; reflexivity|].
           rewrite count_fetch_app, count_decode_app, Hcf, Hcd.
           split; [unfold first, count_fetch, count_decode; simpl; lia|]. split; [unfold first, count_fetch, count_decode; simpl; lia|].
           split; [|split; [intros _; exists token, e; auto | exact Hdeny]].
           intros token' e' Ht He. inversion Ht; subst token'.
           rewrite Hd in He. inversion He; subst e'.
           split; [congruence|]. intros _. split; [reflexivity|].
           fold first. fold url. rewrite Hf.
           split; [discriminate|].
           intros j' Hj. inversion Hj; subst j'.
           split; [reflexivity|].
           split; [exists rest; auto|].
           intros e'' He''. congruence.
        -- exists [first; IoFetch url; IoDecode token j].
           split; [simpl; rewrite <- !app_assoc; reflexivity|].
           split; [unfold first, count_fetch, count_decode; simpl; lia|]. split; [unfold first, count_fetch, count_decode; simpl; lia|].
           split; [|split; [intros _; exists token, e; auto | exact Hdeny]].
           intros token' e' Ht He. inversion Ht; subst token'.
           rewrite Hd in He. inversion He; subst e'.
           split; [congruence|]. intros _. split; [reflexivity|].
           fold first. fold url. rewrite Hf.
           split; [discriminate|].
           intros j' Hj. inversion Hj; subst j'.
           split; [reflexivity|].
           split; [exists []; auto|].
           intros e'' He''. rewrite Hd2 in He''. inversion He''; subst e''. auto.
      * (* the fetch itself raised *)
        exists [first; IoFetch url].
        split; [simpl; rewrite <- !app_assoc; reflexivity|].
        split; [unfold first, count_fetch, count_decode; simpl; lia|]. split; [unfold first, count_fetch, count_decode; simpl; lia|].
        split; [|split; [intros _; exists token, e; auto | exact Hdeny]].
        intros token' e' Ht He. inversion Ht; subst token'.
        rewrite Hd in He. inversion He; subst e'.
        split; [congruence|]. intros _. split; [reflexivity|].
        fold first. fold url. rewrite Hf.
        split; [|discriminate].
        intros e'' He''. inversion He''; subst e''. auto.
    + (* no missing key: surfaced at once *)
      exists [first].
      split; [reflexivity|].
      split; [unfold first, count_fetch, count_decode; simpl; lia|]. split; [unfold first, count_fetch, count_decode; simpl; lia|].
      split; [|split; [discriminate | exact Hdeny]].
      intros token' e' Ht He. inversion Ht; subst token'.
      rewrite Hd in He. inversion He; subst e'.
      split; [auto | congruence].
Qed.

(** ** The key-set cache across evaluations *)

(** An evaluation that fetches nothing leaves the key set as it was. *)
Lemma lambda_handler_frame (E : environment) (event : pydict) (w : world) :
  let out := lambda_handler E event w in
  exists calls,
    history (snd out) = history w ++ calls /\
    (count_fetch calls = 0 -> JWKS_CACHE (snd out) = JWKS_CACHE w).
Proof.
  cbv zeta. rewrite lambda_handler_unfold.
  destruct (bearer_token event) as [token | e0].
  2:{ exists []. now rewrite app_nil_r. }
  destruct (verified_claims_calls E token w) as [calls [Hh [_ [_ [_ Hc]]]]].
  destruct (verified_claims E token w) as [[claims | e] w1]; simpl in Hh, Hc.
  - destruct (authorized_from_spec E event claims w1)
      as [Hc' [[rest [Hh' [Hf _]]] _]].
    exists (calls ++ rest). split.
    + now rewrite Hh', Hh, app_assoc.
    + rewrite count_fetch_app, Hc'. intros H. apply Hc. lia.
  - exists calls. auto.
Qed.

(** C10: [refresh_jwks_and_retry] stores whatever [fetch_jwks] returned in
    [JWKS_CACHE] before it retries, whether or not the retry succeeds; what
    [fetch_jwks] returns after a [RequestException] is the empty dict.  So an
    evaluation whose first verification fails with [Key not found] while the
    identity provider cannot be reached ends with an empty cache, whatever the
    cache held before, and the evaluation that follows verifies against that
    cache.  An evaluation that fetches nothing leaves the cache as it was. *)
Theorem refresh_replaces_cache (E : environment) :
  let url := jwks_url (REGION E) (USER_POOL_ID E) in
  (forall token msg w j,
     contains "Key not found" msg = true ->
     fst (fetch_jwks E (REGION E) (USER_POOL_ID E) w) = Ok j ->
     JWKS_CACHE (snd (refresh_jwks_and_retry E token msg w)) = j) /\
  (forall w m,
     requests_get_json E (history w) url = Raise (RequestException m) ->
     fst (fetch_jwks E (REGION E) (USER_POOL_ID E) w) = Ok (VDict [])) /\
  (forall event w token msg m,
     bearer_token event = Ok token ->
     jwt_decode E (history w) token (JWKS_CACHE w) = Raise (JoseError msg) ->
     contains "Key not found" msg = true ->
     requests_get_json E (history w ++ [IoDecode token (JWKS_CACHE w)]) url
       = Raise (RequestException m) ->
     JWKS_CACHE (snd (lambda_handler E event w)) = VDict []) /\
  (forall event w token,
     bearer_token event = Ok token ->
     exists rest,
       history (snd (lambda_handler E event w))
       = history w ++ IoDecode token (JWKS_CACHE w) :: rest) /\
  (forall event w,
     count_fetch (history (snd (lambda_handler E event w))) = count_fetch (history w) ->
     JWKS_CACHE (snd (lambda_handler E event w)) = JWKS_CACHE w).
Proof.
  cbv zeta. split; [|split; [|split; [|split]]].
  - intros token msg w j Hk Hf.
    rewrite fetch_jwks_unfold in Hf. simpl in Hf.
    rewrite refresh_jwks_and_retry_unfold, Hk, Hf. reflexivity.
  - intros w m Hr. rewrite fetch_jwks_unfold. simpl. now rewrite Hr.
  - intros event w token msg m Hb Hd Hk Hr.
    rewrite lambda_handler_unfold, Hb, verified_claims_unfold, Hd.
    simpl. rewrite Hk, Hr. simpl.
    destruct (jwt_decode E _ token (VDict [])) as [claims | e]; [|reflexivity].
    now destruct (authorized_from_spec E event claims
                    (mkWorld (VDict [])
                       (((history w ++ [IoDecode token (JWKS_CACHE w)])
                           ++ [IoFetch (jwks_url (REGION E) (USER_POOL_ID E))])
                          ++ [IoDecode token (VDict [])]))) as [Hc _].
  - intros event w token Hb.
    rewrite lambda_handler_unfold, Hb, verified_claims_unfold.
    assert (Hafter : forall claims w1 pre,
              history w1 = history w ++ IoDecode token (JWKS_CACHE w) :: pre ->
              exists rest, history (snd (authorized_from E event claims w1))
                           = history w ++ IoDecode token (JWKS_CACHE w) :: rest).
    { intros claims w1 pre Hw1.
      destruct (authorized_from_spec E event claims w1) as [_ [[rest [Hh _]] _]].
      exists (pre ++ rest). rewrite Hh, Hw1, <- app_assoc. reflexivity. }
    destruct (jwt_decode E (history w) token (JWKS_CACHE w)) as [claims | e].
    + apply (Hafter claims _ []). reflexivity.
    + destruct (key_missing e).
      * destruct (fetched _) as [j | e1].
        -- destruct (jwt_decode E _ token j) as [claims | e2].
           ++ apply (Hafter claims _
                       [IoFetch (jwks_url (REGION E) (USER_POOL_ID E)); IoDecode token j]).
              simpl. now rewrite <- !app_assoc.
           ++ eexists. simpl. rewrite <- !app_assoc. reflexivity.
        -- eexists. simpl. rewrite <- !app_assoc. reflexivity.
      * exists []. reflexivity.
  - intros event w Hc.
    destruct (lambda_handler_frame E event w) as [calls [Hh Hf]].
    apply Hf. rewrite Hh, count_fetch_app in Hc. lia.
Qed.

(** A warm process with a populated key set: a token signed with an unknown
    key arrives while the identity provider is down.  The evaluation makes
    one fetch and one retry, denies, and leaves the key set empty. *)
Example refresh_degrades_cache :
  lambda_handler (sample_env http_down jwt_key_missing vp_allows)
                 (sample_event (VStr "Bearer abc")) sample_world
  = (Ok (deny_policy (sample_event (VStr "Bearer abc"))),
     mkWorld (VDict [])
       [ IoDecode "abc" sample_jwks;
         IoFetch "https://cognito-idp.eu-west-1.amazonaws.com/pool-1/.well-known/jwks.json";
         IoDecode "abc" (VDict []) ]).
Proof. reflexivity. Qed.

(** * Further properties of the authorizer *)

(** ** Strings *)

Lemma prefix_app (p t : string) : String.prefix p (p ++ t) = true.
Proof.
  induction p as [|a p IH]; simpl; [destruct t; reflexivity|].
  destruct (ascii_dec a a); [assumption | contradiction].
Qed.

Lemma string_app_assoc (a b c : string) : ((a ++ b) ++ c = a ++ (b ++ c))%string.
Proof. induction a as [|x a IH]; simpl; [reflexivity | now rewrite IH]. Qed.

Lemma drop_app (p t : string) : drop (String.length p) (p ++ t) = t.
Proof. induction p as [|a p IH]; simpl; auto. Qed.

Lemma replace_from_skip (old new : string) (k : nat) (s : string) :
  replace_from old new k s = replace_from old new 0 (drop k s).
Proof.
  revert k. induction s as [|c s IH]; intros k.
  - destruct k; reflexivity.
  - destruct k as [|k]; [reflexivity|]. simpl. apply IH.
Qed.

Lemma replace_from_absent (old new s : string) :
  contains old s = false -> replace_from old new 0 s = s.
Proof.
  induction s as [|c s IH]; simpl; [reflexivity|].
  intros H. apply orb_false_iff in H. destruct H as [Hp Hc].
  simpl in Hp. rewrite Hp. now rewrite IH.
Qed.

(** A name in which [custom:] occurs at the start and nowhere after it:
    [replace] removes just that prefix. *)
Lemma str_replace_leading_only (k : string) :
  startswith k "custom:" = true ->
  contains "custom:" (drop 7 k) = false ->
  str_replace k "custom:" "" = removeprefix k "custom:".
Proof.
  unfold startswith, removeprefix, str_replace. intros Hp Hc. rewrite Hp.
  destruct k as [|c k]; [discriminate|].
  unfold replace_from; fold replace_from. rewrite Hp.
  rewrite replace_from_skip. simpl String.length. simpl Nat.sub.
  change (drop 7 (String c k)) with (drop 6 k) in *.
  simpl append. now apply replace_from_absent.
Qed.

Lemma fold_left_ext_in {A B : Type} (f g : A -> B -> A) (l : list B) (a : A) :
  (forall a x, In x l -> f a x = g a x) -> fold_left f l a = fold_left g l a.
Proof.
  revert a. induction l as [|x l IH]; intros a H; simpl; [reflexivity|].
  rewrite (H a x) by (now left). apply IH. intros a' y Hy. apply H. now right.
Qed.

(** ** The bearer token *)

(** X5: the token the handler verifies: what follows one leading [Bearer ] of
    the [authorizationToken] (a second [Bearer ] stays), the value itself
    when it does not start with [Bearer ], and the empty string when the event
    has no [authorizationToken]. *)
Theorem bearer_token_strips_one_prefix (event : pydict) :
  (forall t, dict_get event "authorizationToken" = Some (VStr ("Bearer " ++ t)) ->
             bearer_token event = Ok t) /\
  (forall s, dict_get event "authorizationToken" = Some (VStr s) ->
             startswith s "Bearer " = false ->
             bearer_token event = Ok s) /\
  (dict_get event "authorizationToken" = None -> bearer_token event = Ok "").
Proof.
  unfold bearer_token, dict_get_default. split; [|split].
  - intros t H. rewrite H. unfold startswith. rewrite prefix_app.
    now rewrite drop_app.
  - intros s H Hs. now rewrite H, Hs.
  - intros H. now rewrite H.
Qed.

(** ** The key-set endpoint (fetch_jwks) *)

(** X6: [fetch_jwks] asks the identity provider once, at the address that is
    the issuer expected of the tokens followed by [/.well-known/jwks.json];
    it does not touch [JWKS_CACHE]; it returns the answer, the empty dict when
    the request raised a [RequestException], and lets any other exception
    out, so it never raises a [RequestException] itself. *)
Theorem fetch_jwks_outcome
  (E : environment) (region user_pool_id : string) (w : world) :
  let url := jwks_url region user_pool_id in
  let answer := requests_get_json E (history w) url in
  let out := fetch_jwks E region user_pool_id w in
  url = (expected_issuer region user_pool_id ++ "/.well-known/jwks.json")%string /\
  snd out = mkWorld (JWKS_CACHE w) (history w ++ [IoFetch url]) /\
  (forall j, answer = Ok j -> fst out = Ok j) /\
  (forall m, answer = Raise (RequestException m) -> fst out = Ok (VDict [])) /\
  (forall e, answer = Raise e -> (forall m, e <> RequestException m) ->
             fst out = Raise e) /\
  (forall m, fst out <> Raise (RequestException m)).
Proof.
  cbv zeta. unfold fetch_jwks, try_except, call, ret. simpl.
  split.
  { unfold jwks_url, expected_issuer.
    now rewrite !string_app_assoc. }
  destruct (requests_get_json E (history w) (jwks_url region user_pool_id))
    as [j | e] eqn:Ha.
  - simpl. repeat split; try discriminate. intros j' H. now inversion H.
  - destruct e; simpl; repeat split; try discriminate;
      try (intros e' H Hne; inversion H; subst; try reflexivity);
      try (intros e' H; inversion H; subst; reflexivity).
    exfalso. apply (Hne msg). reflexivity.
Qed.

(** ** Claims validation (validate_claims) *)

(** X7: [validate_claims] passes exactly when [aud] is the string [client_id]
    and [iss] the string of the expected issuer.  The audience is looked at
    first: a missing [aud], an [aud] that is another string or not a string
    at all (a list that holds [client_id] included) raises
    [ValueError("Invalid audience")] whatever [iss] is; with a right [aud], a
    wrong [iss] raises [ValueError("Invalid issuer")].  The process state is
    not touched. *)
Theorem validate_claims_outcome
  (claims : pydict) (client_id region user_pool_id : string) (w : world) :
  let out := validate_claims claims client_id region user_pool_id w in
  let issuer := expected_issuer region user_pool_id in
  snd out = w /\
  (fst out = Ok tt <->
     dict_get claims "aud" = Some (VStr client_id) /\
     dict_get claims "iss" = Some (VStr issuer)) /\
  (fst out = Raise (ValueError "Invalid audience") <->
     dict_get claims "aud" <> Some (VStr client_id)) /\
  (fst out = Raise (ValueError "Invalid issuer") <->
     dict_get claims "aud" = Some (VStr client_id) /\
     dict_get claims "iss" <> Some (VStr issuer)) /\
  (forall l, dict_get claims "aud" = Some (VList l) ->
     fst out = Raise (ValueError "Invalid audience")).
Proof.
  cbv zeta. unfold validate_claims, dict_get_default.
  assert (Hne : forall (o : option pyval) (s : string),
            ne_str (match o with Some v => v | None => VNone end) s = false
            <-> o = Some (VStr s)).
  { intros o s. destruct o as [[|b|n|t|l|d]|]; simpl;
      try (split; [discriminate | intros H; inversion H]).
    destruct (String.eqb t s) eqn:Ht; simpl.
    - apply String.eqb_eq in Ht. subst. tauto.
    - apply String.eqb_neq in Ht. split; [discriminate|].
      intros H. inversion H. contradiction. }
  destruct (ne_str (match dict_get claims "aud" with Some v => v | None => VNone end)
                   client_id) eqn:Ha.
  - assert (Hna : dict_get claims "aud" <> Some (VStr client_id)).
    { intros H. apply Hne in H. congruence. }
    simpl. repeat split; intros; try reflexivity; try discriminate;
      try tauto; try congruence.
  - apply Hne in Ha.
    destruct (ne_str (match dict_get claims "iss" with Some v => v | None => VNone end)
                     (expected_issuer region user_pool_id)) eqn:Hi.
    + assert (Hni : dict_get claims "iss" <>
                    Some (VStr (expected_issuer region user_pool_id))).
      { intros H. apply Hne in H. congruence. }
      simpl. repeat split; intros; try reflexivity; try discriminate;
        try tauto; try congruence.
    + apply Hne in Hi.
      simpl. repeat split; intros; try reflexivity; try discriminate;
        try tauto; try congruence.
Qed.

(** ** Attribute extraction, further *)

(** X8: when [custom:] occurs in every custom claim name at the start only, as
    it does for the attributes the user pool declares, the code extracts
    what stripping the leading prefix extracts. *)
Theorem extract_custom_attributes_leading_only (claims : pydict)
  (Hnames : forall k v, In (k, v) claims ->
              startswith k "custom:" = true ->
              contains "custom:" (drop 7 k) = false) :
  extract_custom_attributes claims = extract_custom_attributes_spec claims.
Proof.
  unfold extract_custom_attributes, extract_custom_attributes_spec.
  apply fold_left_ext_in. intros acc [k v] Hin. simpl.
  destruct (startswith k "custom:") eqn:Hs; [|reflexivity].
  now rewrite (str_replace_leading_only k Hs (Hnames k v Hin Hs)).
Qed.

(** The claims of a token of the pool of [auth_stack.py], whose custom
    attributes are [dataProductAccess] and [department]. *)
Lemma extract_custom_attributes_leading_only_witness :
  extract_custom_attributes
    (sample_claims ++ [("custom:dataProductAccess", VStr "sales-eu")])
  = extract_custom_attributes_spec
    (sample_claims ++ [("custom:dataProductAccess", VStr "sales-eu")]).
Proof.
  apply (extract_custom_attributes_leading_only
           (sample_claims ++ [("custom:dataProductAccess", VStr "sales-eu")])).
  intros k v Hin Hs. simpl in Hin.
  repeat (destruct Hin as [Hin | Hin];
          [inversion Hin; subst; try discriminate Hs; reflexivity|]).
  contradiction.
Defined.

Lemma dict_get_last_None (d : pydict) (k : string) :
  dict_get_last d k = None <-> ~ In k (dict_keys d).
Proof.
  induction d as [|[k' v'] d IH]; simpl; [tauto|].
  destruct (dict_get_last d k) eqn:Hl.
  - split; [discriminate|]. intros H. exfalso.
    destruct IH as [_ IH]. apply H. right.
    destruct (in_dec string_dec k (dict_keys d)) as [Hin | Hnin]; [assumption|].
    specialize (IH Hnin). discriminate.
  - destruct (String.eqb k' k) eqn:Hk.
    + apply String.eqb_eq in Hk. split; [discriminate | intros H; exfalso; auto].
    + apply String.eqb_neq in Hk. destruct IH as [IH _]. specialize (IH eq_refl).
      split; [intros _ [H | H]; [congruence | contradiction] | reflexivity].
Qed.

(** X9: the extracted attributes have no key twice; each comes, value
    unchanged, from a claim whose name starts with [custom:]; every such
    claim has its key in the result; a key given by several claims holds the
    value of the last of them; claims with other names give nothing. *)
Theorem extract_custom_attributes_exact (claims : pydict) :
  let custom := extract_custom_attributes claims in
  dict_wf custom /\
  (forall k v, dict_get custom k = Some v ->
     exists k0, In (k0, v) claims /\ startswith k0 "custom:" = true /\
                k = str_replace k0 "custom:" "") /\
  (forall k0 v0, In (k0, v0) claims -> startswith k0 "custom:" = true ->
     exists v, dict_get custom (str_replace k0 "custom:" "") = Some v) /\
  (forall k, dict_get custom k = dict_get_last (custom_items claims) k) /\
  ((forall k v, In (k, v) claims -> startswith k "custom:" = false) -> custom = []).
Proof.
  cbv zeta. split; [apply extract_custom_attributes_wf|].
  split; [apply extract_custom_attributes_sound|].
  split; [|split; [apply extract_custom_attributes_lookup|]].
  - intros k0 v0 Hin Hs. rewrite extract_custom_attributes_lookup.
    apply (dict_get_last_In _ _ v0). unfold custom_items.
    apply in_map_iff. exists (k0, v0). split; [reflexivity|].
    apply filter_In. auto.
  - intros H. unfold extract_custom_attributes.
    assert (Hacc : forall acc : pydict,
              fold_left
                (fun acc kv =>
                   if startswith (fst kv) "custom:"
                   then dict_set acc (str_replace (fst kv) "custom:" "") (snd kv)
                   else acc) claims acc = acc).
    { induction claims as [|[k v] claims IH]; intros acc; simpl; [reflexivity|].
      rewrite (H k v) by (now left). apply IH.
      intros k' v' Hin. apply (H k' v'). now right. }
    apply Hacc.
Qed.

(** ** The attributes of the principal *)

Lemma fold_set_head (g : pyval -> pyval) (items : pydict) k v acc :
  exists v', fold_left (fun a kv => dict_set a (fst kv) (g (snd kv))) items ((k, v) :: acc)
             = (k, v') ::
               fold_left (fun a kv => dict_set a (fst kv) (g (snd kv)))
                         (filter (fun kv => negb (String.eqb k (fst kv))) items) acc.
Proof.
  revert v acc. induction items as [|[k1 v1] items IH]; intros v acc; simpl.
  - now exists v.
  - destruct (String.eqb k k1) eqn:Hk; simpl.
    + apply IH.
    + destruct (IH v (dict_set acc k1 (g v1))) as [v' Hv']. exists v'. exact Hv'.
Qed.

(** X10: the attribute map of the principal has no key twice, starts with
    [group], and its keys are [group] and the names of the custom attributes,
    no more and no fewer. *)
Theorem principal_attributes_keys (group_value : pyval) (custom_attributes : pydict) :
  let attributes := principal_attributes group_value custom_attributes in
  (exists v rest, attributes = ("group", v) :: rest) /\
  (forall k, In k (dict_keys attributes) <->
             k = "group" \/ In k (dict_keys custom_attributes)) /\
  dict_wf attributes.
Proof.
  cbv zeta. split; [|split].
  - unfold principal_attributes.
    destruct (fold_set_head wrap_value custom_attributes "group"
                            (wrap_value group_value) []) as [v' Hv'].
    rewrite Hv'. eauto.
  - intros k. 
    assert (Hin : In k (dict_keys (principal_attributes group_value custom_attributes))
                  <-> dict_get (principal_attributes group_value custom_attributes) k
                      <> None).
    { pose proof (dict_get_None_not_key
                    (principal_attributes group_value custom_attributes) k) as Hn.
      destruct (in_dec string_dec k
                  (dict_keys (principal_attributes group_value custom_attributes)));
        tauto. }
    rewrite Hin, principal_attributes_lookup.
    pose proof (dict_get_last_None custom_attributes k) as Hl.
    destruct (dict_get_last custom_attributes k) eqn:Hg.
    + split; [intros _; right | discriminate].
      destruct (in_dec string_dec k (dict_keys custom_attributes)) as [H | H];
        [assumption | apply Hl in H; discriminate].
    + destruct Hl as [Hl _]. specialize (Hl eq_refl).
      destruct (String.eqb "group" k) eqn:Hk.
      * apply String.eqb_eq in Hk. split; [auto | discriminate].
      * apply String.eqb_neq in Hk.
        split; [congruence | intros [H | H]; [congruence | contradiction]].
  - unfold principal_attributes.
    assert (Hacc : dict_wf [("group", wrap_value group_value)])
      by (constructor; [simpl; tauto | constructor]).
    revert Hacc. generalize [("group", wrap_value group_value)] as acc.
    induction custom_attributes as [|[k v] custom IH]; intros acc Hacc; simpl; auto.
    apply IH. now apply dict_set_wf.
Qed.

(** ** The handler, end to end *)

Lemma decision_of_allow (answer : result pydict) :
  decision_of answer = "Allow" <->
  exists response, answer = Ok response /\
                   dict_get response "decision" = Some (VStr "ALLOW").
Proof.
  unfold decision_of, eq_str, ne_str, dict_get_default.
  destruct answer as [response | e].
  - destruct (dict_get response "decision") as [[|b|n|s|l|d]|] eqn:Hd; simpl;
      try (split; [discriminate | intros [r [Hr Hd']]; inversion Hr; subst; congruence]).
    destruct (String.eqb s "ALLOW") eqn:Hs; simpl.
    + apply String.eqb_eq in Hs. subst. split; eauto.
    + apply String.eqb_neq in Hs. split; [discriminate|].
      intros [r [Hr Hd']]. inversion Hr; subst. congruence.
  - split; [discriminate | intros [r [Hr _]]; discriminate].
Qed.

(** The handler once the claims are verified and pass validation. *)
Lemma lambda_handler_valid_claims
  (E : environment) (event : pydict) (w : world)
  (token : string) (claims : pydict) (w1 : world) :
  bearer_token event = Ok token ->
  verified_claims E token w = (Ok claims, w1) ->
  dict_get claims "aud" = Some (VStr (CLIENT_ID E)) ->
  dict_get claims "iss" = Some (VStr (expected_issuer (REGION E) (USER_POOL_ID E))) ->
  lambda_handler E event w =
  match group_value_of claims with
  | Raise e =>
      (handled e (dict_get_default claims "cognito:username" (VStr "unknown"))
               (dict_get_default event "methodArn" (VStr "*")), w1)
  | Ok g =>
      (Ok (generate_policy
             (dict_get_default claims "cognito:username" (VStr "unknown"))
             (decision_of (vp_is_authorized E (history w1) (query_of E claims g)))
             (dict_get_default event "methodArn" (VStr "*")) None),
       mkWorld (JWKS_CACHE w1) (history w1 ++ [IoIsAuthorized (query_of E claims g)]))
  end.
Proof.
  intros Htoken Hclaims Haud Hiss.
  rewrite lambda_handler_unfold, Htoken, Hclaims. unfold authorized_from.
  destruct (validate_claims_spec claims (CLIENT_ID E) (REGION E) (USER_POOL_ID E) w1)
    as [[_ [_ Hv]] | [[Hm | Hm] _]]; try contradiction.
  rewrite Hv. reflexivity.
Qed.

(** X2: for a token whose claims are verified, pass validation and give a group
    value, the handler calls the engine once with the query of those claims
    and returns a policy for the [cognito:username] of the claims ([unknown]
    when the claim is absent), in [principalId] and as the only entry of the
    context.  The effect is [Allow] exactly when the engine answered [ALLOW];
    when the engine call raises, whatever the exception, the effect is [Deny]
    and the principal is still the one of the claims. *)
Theorem valid_token_policy
  (E : environment) (event : pydict) (w : world)
  (token : string) (claims : pydict) (w1 : world) (g : pyval)
  (Htoken : bearer_token event = Ok token)
  (Hclaims : verified_claims E token w = (Ok claims, w1))
  (Haud : dict_get claims "aud" = Some (VStr (CLIENT_ID E)))
  (Hiss : dict_get claims "iss" =
          Some (VStr (expected_issuer (REGION E) (USER_POOL_ID E))))
  (Hgroup : group_value_of claims = Ok g) :
  let principal := dict_get_default claims "cognito:username" (VStr "unknown") in
  let request := query_of E claims g in
  let answer := vp_is_authorized E (history w1) request in
  exists policy,
    lambda_handler E event w =
      (Ok policy, mkWorld (JWKS_CACHE w1) (history w1 ++ [IoIsAuthorized request])) /\
    dict_get policy "principalId" = Some principal /\
    policy_context policy = Some [("username", principal)] /\
    (policy_effect policy = Some (VStr "Allow") <->
       exists response, answer = Ok response /\
                        dict_get response "decision" = Some (VStr "ALLOW")) /\
    (policy_effect policy = Some (VStr "Allow") \/
     policy_effect policy = Some (VStr "Deny")) /\
    (forall e, answer = Raise e -> policy_effect policy = Some (VStr "Deny")).
Proof.
  cbv zeta.
  rewrite (lambda_handler_valid_claims E event w token claims w1
             Htoken Hclaims Haud Hiss), Hgroup.
  eexists. split; [reflexivity|].
  split; [reflexivity|]. split; [reflexivity|].
  rewrite generate_policy_effect.
  split; [|split].
  - rewrite <- decision_of_allow. split; [intros H; now inversion H | intros H; now rewrite H].
  - destruct (decision_of_allow_or_deny
                (vp_is_authorized E (history w1) (query_of E claims g))) as [H | H];
      rewrite H; auto.
  - intros e He. now rewrite He.
Qed.

(** The engine is down: [alice] is denied, under her own name. *)
Lemma valid_token_policy_witness :
  let E := sample_env http_down (jwt_accepts sample_claims)
                      (fun _ _ => Raise (OtherException "EndpointConnectionError" "")) in
  exists policy,
    fst (lambda_handler E (sample_event (VStr "Bearer abc")) sample_world) = Ok policy /\
    dict_get policy "principalId" = Some (VStr "alice") /\
    policy_effect policy = Some (VStr "Deny").
Proof.
  cbv zeta.
  destruct (valid_token_policy
              (sample_env http_down (jwt_accepts sample_claims)
                 (fun _ _ => Raise (OtherException "EndpointConnectionError" "")))
              (sample_event (VStr "Bearer abc")) sample_world "abc" sample_claims
              (mkWorld sample_jwks [IoDecode "abc" sample_jwks]) (VStr "admin")
              eq_refl eq_refl eq_refl eq_refl eq_refl)
    as [policy [Hrun [Hp [_ [_ [_ Hdeny]]]]]].
  exists policy. rewrite Hrun. split; [reflexivity|]. split; [exact Hp|].
  apply (Hdeny (OtherException "EndpointConnectionError" "")). reflexivity.
Defined.

(** X1: a policy with effect [Allow] is returned only after every check has
    passed: the token is a string, its claims were verified, [aud] and [iss]
    are the expected strings, the group value could be read, and the engine
    answered [ALLOW] to the query of those claims. *)
Theorem allow_only_after_all_checks
  (E : environment) (event : pydict) (w : world) (policy : pydict)
  (Hpolicy : fst (lambda_handler E event w) = Ok policy)
  (Hallow : policy_effect policy = Some (VStr "Allow")) :
  exists token claims w1 g response,
    bearer_token event = Ok token /\
    verified_claims E token w = (Ok claims, w1) /\
    dict_get claims "aud" = Some (VStr (CLIENT_ID E)) /\
    dict_get claims "iss" = Some (VStr (expected_issuer (REGION E) (USER_POOL_ID E))) /\
    group_value_of claims = Ok g /\
    vp_is_authorized E (history w1) (query_of E claims g) = Ok response /\
    dict_get response "decision" = Some (VStr "ALLOW").
Proof.
  rewrite lambda_handler_unfold in Hpolicy.
  assert (Hhandled : forall e pr res,
            handled e pr res = Ok policy -> False).
  { intros e pr res H. unfold handled in H.
    destruct (absorbed e); [|discriminate].
    inversion H; subst policy. discriminate. }
  destruct (bearer_token event) as [token | e0] eqn:Hb; [|discriminate].
  destruct (verified_claims E token w) as [[claims | e1] w1] eqn:Hv;
    [|exfalso; simpl in Hpolicy; eauto].
  unfold authorized_from in Hpolicy.
  destruct (validate_claims_spec claims (CLIENT_ID E) (REGION E) (USER_POOL_ID E) w1)
    as [[Haud [Hiss Hval]] | [_ [msg Hval]]]; rewrite Hval in Hpolicy;
    [|exfalso; simpl in Hpolicy; eauto].
  destruct (group_value_of claims) as [g | e2] eqn:Hg;
    [|exfalso; simpl in Hpolicy; eauto].
  simpl in Hpolicy. inversion Hpolicy; subst policy.
  rewrite generate_policy_effect in Hallow.
  assert (Hd : decision_of (vp_is_authorized E (history w1) (query_of E claims g))
               = "Allow") by (now inversion Hallow).
  apply decision_of_allow in Hd. destruct Hd as [response [Hr Hdec]].
  exists token, claims, w1, g, response. auto 10.
Qed.

Lemma allow_only_after_all_checks_witness :
  let E := sample_env http_down (jwt_accepts sample_claims) vp_allows in
  exists token claims w1 g response,
    bearer_token (sample_event (VStr "Bearer abc")) = Ok token /\
    verified_claims E token sample_world = (Ok claims, w1) /\
    dict_get claims "aud" = Some (VStr (CLIENT_ID E)) /\
    dict_get claims "iss" = Some (VStr (expected_issuer (REGION E) (USER_POOL_ID E))) /\
    group_value_of claims = Ok g /\
    vp_is_authorized E (history w1) (query_of E claims g) = Ok response /\
    dict_get response "decision" = Some (VStr "ALLOW").
Proof.
  cbv zeta.
  apply (allow_only_after_all_checks
           (sample_env http_down (jwt_accepts sample_claims) vp_allows)
           (sample_event (VStr "Bearer abc")) sample_world
           (generate_policy (VStr "alice") "Allow"
              (VStr "arn:aws:execute-api:eu-west-1:1:api/prod/GET/hello") None)).
  - reflexivity.
  - reflexivity.
Defined.

Lemma count_is_authorized_zero_not_in (calls : list io) (request : pydict) :
  count_is_authorized calls = 0 -> ~ In (IoIsAuthorized request) calls.
Proof.
  unfold count_is_authorized. induction calls as [|c calls IH]; simpl; [tauto|].
  destruct c; simpl; try discriminate;
    intros H [Heq | Hin]; try discriminate; now apply IH.
Qed.

(** X3: one evaluation calls the policy engine at most once, as its last call,
    and only with the query of claims that were verified and passed
    validation: a token that fails verification or validation never reaches
    the engine. *)
Theorem engine_called_only_for_valid_claims
  (E : environment) (event : pydict) (w : world) :
  let out := lambda_handler E event w in
  exists calls,
    history (snd out) = history w ++ calls /\
    count_is_authorized calls <= 1 /\
    (forall request, In (IoIsAuthorized request) calls ->
       exists token claims w1 g,
         bearer_token event = Ok token /\
         verified_claims E token w = (Ok claims, w1) /\
         dict_get claims "aud" = Some (VStr (CLIENT_ID E)) /\
         dict_get claims "iss" =
           Some (VStr (expected_issuer (REGION E) (USER_POOL_ID E))) /\
         group_value_of claims = Ok g /\
         request = query_of E claims g /\
         history (snd out) = history w1 ++ [IoIsAuthorized request]).
Proof.
  cbv zeta. rewrite lambda_handler_unfold.
  destruct (bearer_token event) as [token | e0] eqn:Hb.
  2:{ exists []. rewrite app_nil_r. simpl. repeat split; auto. intros r []. }
  destruct (verified_claims_calls E token w) as [calls [Hh [Hz _]]].
  destruct (verified_claims E token w) as [[claims | e1] w1] eqn:Hv; simpl in Hh.
  2:{ exists calls. simpl. split; [assumption|]. split; [lia|].
      intros r Hin. exfalso. now apply (count_is_authorized_zero_not_in calls r). }
  unfold authorized_from.
  destruct (validate_claims_spec claims (CLIENT_ID E) (REGION E) (USER_POOL_ID E) w1)
    as [[Haud [Hiss Hval]] | [_ [msg Hval]]]; rewrite Hval.
  2:{ exists calls. simpl. split; [assumption|]. split; [lia|].
      intros r Hin. exfalso. now apply (count_is_authorized_zero_not_in calls r). }
  destruct (group_value_of claims) as [g | e2] eqn:Hg.
  2:{ exists calls. simpl. split; [assumption|]. split; [lia|].
      intros r Hin. exfalso. now apply (count_is_authorized_zero_not_in calls r). }
  exists (calls ++ [IoIsAuthorized (query_of E claims g)]). simpl.
  split; [now rewrite Hh, app_assoc|].
  split; [rewrite count_is_authorized_app, Hz; unfold count_is_authorized; simpl; lia|].
  intros r Hin. apply in_app_or in Hin. destruct Hin as [Hin | [Heq | []]].
  - exfalso. now apply (count_is_authorized_zero_not_in calls r).
  - inversion Heq; subst r.
    exists token, claims, w1, g. auto 10.
Qed.

(** The requests an evaluation sends to the engine are queries built by the
    handler from claims. *)
Lemma lambda_handler_engine_requests
  (E : environment) (event : pydict) (w : world) :
  exists calls,
    history (snd (lambda_handler E event w)) = history w ++ calls /\
    (forall request, In (IoIsAuthorized request) calls ->
       exists claims g, request = query_of E claims g).
Proof.
  rewrite lambda_handler_unfold.
  destruct (bearer_token event) as [token | e0].
  2:{ exists []. rewrite app_nil_r. split; [reflexivity | intros r []]. }
  destruct (verified_claims_calls E token w) as [calls [Hh [Hz _]]].
  destruct (verified_claims E token w) as [[claims | e1] w1]; simpl in Hh.
  2:{ exists calls. split; [assumption|]. intros r Hin. exfalso.
      now apply (count_is_authorized_zero_not_in calls r). }
  unfold authorized_from.
  destruct (validate_claims claims (CLIENT_ID E) (REGION E) (USER_POOL_ID E) w1)
    as [[u | e2] w1'] eqn:Hval.
  2:{ destruct (validate_claims_spec claims (CLIENT_ID E) (REGION E) (USER_POOL_ID E) w1)
        as [[_ [_ Hv]] | [_ [msg Hv]]]; rewrite Hv in Hval; inversion Hval; subst.
      exists calls. split; [assumption|]. intros r Hin. exfalso.
      now apply (count_is_authorized_zero_not_in calls r). }
  assert (Hw : w1' = w1).
  { destruct (validate_claims_spec claims (CLIENT_ID E) (REGION E) (USER_POOL_ID E) w1)
      as [[_ [_ Hv]] | [_ [msg Hv]]]; rewrite Hv in Hval; now inversion Hval. }
  subst w1'.
  destruct (group_value_of claims) as [g | e3].
  2:{ exists calls. split; [assumption|]. intros r Hin. exfalso.
      now apply (count_is_authorized_zero_not_in calls r). }
  exists (calls ++ [IoIsAuthorized (query_of E claims g)]). simpl.
  split; [now rewrite Hh, app_assoc|].
  intros r Hin. apply in_app_or in Hin. destruct Hin as [Hin | [Heq | []]].
  - exfalso. now apply (count_is_authorized_zero_not_in calls r).
  - inversion Heq. eauto.
Qed.

(** X4: the resource asked for plays no part in the decision: two events with
    the same token are evaluated with the same calls, leave the same process
    state and get the same principal and effect, or the same exception; the
    [methodArn] only becomes the resource of the policy returned.  Whatever
    the event, a query sent to the engine is for the configured policy store
    and asks for the action [access] on the resource [my-resource]. *)
Theorem method_arn_not_consulted
  (E : environment) (event1 event2 : pydict) (w : world)
  (Htoken : bearer_token event1 = bearer_token event2) :
  snd (lambda_handler E event1 w) = snd (lambda_handler E event2 w) /\
  ((exists e, fst (lambda_handler E event1 w) = Raise e /\
              fst (lambda_handler E event2 w) = Raise e) \/
   (exists principal eff,
      fst (lambda_handler E event1 w) =
        Ok (generate_policy principal eff
              (dict_get_default event1 "methodArn" (VStr "*")) None) /\
      fst (lambda_handler E event2 w) =
        Ok (generate_policy principal eff
              (dict_get_default event2 "methodArn" (VStr "*")) None))) /\
  (forall (event : pydict) (calls : list io) (request : pydict),
     history (snd (lambda_handler E event w)) = history w ++ calls ->
     In (IoIsAuthorized request) calls ->
     dict_get request "policyStoreId" = Some (VStr (POLICY_STORE_ID E)) /\
     dict_get request "action" =
       Some (VDict [("actionType", VStr "ExampleCo::Connectiv::Action");
                    ("actionId", VStr "access")]) /\
     dict_get request "resource" =
       Some (VDict [("entityType", VStr "ExampleCo::Connectiv::Resource");
                    ("entityId", VStr "my-resource")])).
Proof.
  split; [|split].
  3:{ intros event calls request Hh Hin.
      destruct (lambda_handler_engine_requests E event w) as [calls0 [Hh0 Hq]].
      rewrite Hh0 in Hh. apply app_inv_head in Hh. subst calls0.
      destruct (Hq request Hin) as [claims [g Hr]]. subst request.
      repeat split. }
  all: rewrite !lambda_handler_unfold, <- Htoken.
  all: assert (Hhandled : forall e pr (w' : world),
    snd (handled e pr (dict_get_default event1 "methodArn" (VStr "*")), w') =
    snd (handled e pr (dict_get_default event2 "methodArn" (VStr "*")), w') /\
    ((exists e', fst (handled e pr (dict_get_default event1 "methodArn" (VStr "*")), w')
                 = Raise e' /\
                 fst (handled e pr (dict_get_default event2 "methodArn" (VStr "*")), w')
                 = Raise e') \/
     (exists principal eff,
        fst (handled e pr (dict_get_default event1 "methodArn" (VStr "*")), w') =
          Ok (generate_policy principal eff
                (dict_get_default event1 "methodArn" (VStr "*")) None) /\
        fst (handled e pr (dict_get_default event2 "methodArn" (VStr "*")), w') =
          Ok (generate_policy principal eff
                (dict_get_default event2 "methodArn" (VStr "*")) None))))
    by (intros e pr w'; unfold handled; split; [reflexivity|];
        destruct (absorbed e); simpl;
        [right; do 2 eexists | left; eexists]; split; reflexivity).
  all: destruct (bearer_token event1) as [token | e0];
    [|first [reflexivity | left; eexists; split; reflexivity]].
  all: destruct (verified_claims E token w) as [[claims | e1] w1];
    [|apply Hhandled].
  all: unfold authorized_from.
  all: destruct (validate_claims claims (CLIENT_ID E) (REGION E) (USER_POOL_ID E) w1)
    as [[u | e2] w1']; [|apply Hhandled].
  all: destruct (group_value_of claims) as [g | e3]; [|apply Hhandled].
  - reflexivity.
  - right. simpl. do 2 eexists. split; reflexivity.
Qed.

(** The same token for two different methods. *)
Lemma method_arn_not_consulted_witness :
  let E := sample_env http_down (jwt_accepts sample_claims) vp_allows in
  let event1 := sample_event (VStr "Bearer abc") in
  let event2 := [("authorizationToken", VStr "Bearer abc");
                 ("methodArn", VStr "arn:aws:execute-api:eu-west-1:1:api/prod/DELETE/users")] in
  snd (lambda_handler E event1 sample_world) = snd (lambda_handler E event2 sample_world).
Proof.
  cbv zeta.
  apply (proj1 (method_arn_not_consulted
           (sample_env http_down (jwt_accepts sample_claims) vp_allows)
           (sample_event (VStr "Bearer abc"))
           [("authorizationToken", VStr "Bearer abc");
            ("methodArn", VStr "arn:aws:execute-api:eu-west-1:1:api/prod/DELETE/users")]
           sample_world eq_refl)).
Defined.

(** ** The cache from one evaluation to the next *)

Lemma lambda_handler_first_call
  (E : environment) (event : pydict) (w : world) (token : string) :
  bearer_token event = Ok token ->
  exists rest,
    history (snd (lambda_handler E event w))
    = history w ++ IoDecode token (JWKS_CACHE w) :: rest.
Proof.
  intros Hb. rewrite lambda_handler_unfold, Hb, verified_claims_unfold.
  assert (Hafter : forall claims w1 pre,
            history w1 = history w ++ IoDecode token (JWKS_CACHE w) :: pre ->
            exists rest, history (snd (authorized_from E event claims w1))
                         = history w ++ IoDecode token (JWKS_CACHE w) :: rest).
  { intros claims w1 pre Hw1.
    destruct (authorized_from_spec E event claims w1) as [_ [[rest [Hh _]] _]].
    exists (pre ++ rest). rewrite Hh, Hw1, <- app_assoc. reflexivity. }
  destruct (jwt_decode E (history w) token (JWKS_CACHE w)) as [claims | e].
  - apply (Hafter claims _ []). reflexivity.
  - destruct (key_missing e).
    + destruct (fetched _) as [j | e1].
      * destruct (jwt_decode E _ token j) as [claims | e2].
        -- apply (Hafter claims _
                    [IoFetch (jwks_url (REGION E) (USER_POOL_ID E)); IoDecode token j]).
           simpl. now rewrite <- !app_assoc.
        -- eexists. simpl. rewrite <- !app_assoc. reflexivity.
      * eexists. simpl. rewrite <- !app_assoc. reflexivity.
    + exists []. reflexivity.
Qed.

(** X11: after an evaluation that refreshed, [JWKS_CACHE] holds the key set that
    was fetched, whether the retry verified the token or not and whatever the
    later stages did; the evaluation that follows verifies its token against
    that key set first. *)
Theorem refreshed_keys_serve_next_evaluation
  (E : environment) (event : pydict) (w : world)
  (token : string) (e : exn) (j : pyval)
  (Htoken : bearer_token event = Ok token)
  (Hfirst : jwt_decode E (history w) token (JWKS_CACHE w) = Raise e)
  (Hmissing : key_missing e = true)
  (Hfetch : fetched (requests_get_json E
                       (history w ++ [IoDecode token (JWKS_CACHE w)])
                       (jwks_url (REGION E) (USER_POOL_ID E))) = Ok j) :
  let w' := snd (lambda_handler E event w) in
  JWKS_CACHE w' = j /\
  (forall event2 token2,
     bearer_token event2 = Ok token2 ->
     exists rest,
       history (snd (lambda_handler E event2 w'))
       = history w' ++ IoDecode token2 j :: rest).
Proof.
  cbv zeta.
  assert (Hc : JWKS_CACHE (snd (lambda_handler E event w)) = j).
  { rewrite lambda_handler_unfold, Htoken, verified_claims_unfold, Hfirst, Hmissing.
    simpl. rewrite Hfetch.
    destruct (jwt_decode E _ token j) as [claims | e2]; [|reflexivity].
    now destruct (authorized_from_spec E event claims
                    (mkWorld j
                       (((history w ++ [IoDecode token (JWKS_CACHE w)])
                           ++ [IoFetch (jwks_url (REGION E) (USER_POOL_ID E))])
                          ++ [IoDecode token j]))) as [Hc _]. }
  split; [exact Hc|].
  intros event2 token2 Hb2.
  destruct (lambda_handler_first_call E event2 (snd (lambda_handler E event w))
              token2 Hb2) as [rest Hrest].
  exists rest. now rewrite Hrest, Hc.
Qed.

(** The provider publishes a new key set; the next token is checked against
    it. *)
Lemma refreshed_keys_serve_next_evaluation_witness :
  let new_jwks := VDict [("keys", VList [VDict [("kid", VStr "key-2")]])] in
  let E := sample_env (fun _ _ => Ok new_jwks) jwt_key_missing vp_allows in
  JWKS_CACHE (snd (lambda_handler E (sample_event (VStr "Bearer abc")) sample_world))
  = new_jwks.
Proof.
  cbv zeta.
  apply (refreshed_keys_serve_next_evaluation
           (sample_env
              (fun _ _ => Ok (VDict [("keys", VList [VDict [("kid", VStr "key-2")]])]))
              jwt_key_missing vp_allows)
           (sample_event (VStr "Bearer abc")) sample_world "abc"
           (JoseError "Key not found")
           (VDict [("keys", VList [VDict [("kid", VStr "key-2")]])])
           eq_refl eq_refl eq_refl eq_refl).
Defined.

(** * Import time *)



(** * The greeting endpoint *)

(** X13: [hello] answers with status 200 and greets the [username] of the
    authorizer context, or [guest] when the event has no [requestContext], no
    [authorizer] in it or no [username] there; it raises [AttributeError] when
    [requestContext] or [authorizer] is present and not a dict. *)
Theorem hello_outcome
  (json_dumps : pyval -> string) (format_value : pyval -> string) (event : pydict) :
  let run := Hello.lambda_handler json_dumps format_value event in
  let greeting name :=
    VStr (json_dumps
            (VDict [("message", VStr ("Hello " ++ name ++ ", authorization succeeded!"))])) in
  let request_context := dict_get_default event "requestContext" (VDict []) in
  (forall rc, request_context = VDict rc ->
     (forall a, dict_get_default rc "authorizer" (VDict []) = VDict a ->
        exists response,
          run = Ok response /\
          dict_get response "statusCode" = Some (VInt 200) /\
          dict_get response "body" =
            Some (greeting (Hello.format format_value
                              (dict_get_default a "username" (VStr "guest"))))) /\
     ((forall a, dict_get_default rc "authorizer" (VDict []) <> VDict a) ->
        exists m, run = Raise (AttributeError m))) /\
  ((forall rc, request_context <> VDict rc) ->
     exists m, run = Raise (AttributeError m)) /\
  (dict_get event "requestContext" = None ->
     exists response, run = Ok response /\
                      dict_get response "body" = Some (greeting "guest")).
Proof.
  cbv zeta. unfold Hello.lambda_handler.
  split; [|split].
  - intros rc Hrc. rewrite Hrc. simpl. split.
    + intros a Ha. rewrite Ha. simpl. eexists. repeat split.
    + intros Hn.
      destruct (dict_get_default rc "authorizer" (VDict [])) as [|b|n|s|l|d];
        simpl; eauto.
      exfalso. now apply (Hn d).
  - intros Hn.
    destruct (dict_get_default event "requestContext" (VDict [])) as [|b|n|s|l|d];
      simpl; eauto.
    exfalso. now apply (Hn d).
  - intros Hnone. unfold dict_get_default. rewrite Hnone. simpl.
    eexists. repeat split.
Qed.

(** X14: the two Lambda functions fit: when the gateway hands [hello] the context
    of the policy the authorizer returned for a principal named by a string,
    [hello] greets that principal. *)
Theorem hello_greets_resolved_principal
  (json_dumps : pyval -> string) (format_value : pyval -> string)
  (name eff : string) (resource : pyval)
  (event request_context authorizer_context : pydict)
  (Hpolicy : policy_context (generate_policy (VStr name) eff resource None)
             = Some authorizer_context)
  (Hrc : dict_get event "requestContext" = Some (VDict request_context))
  (Hauth : dict_get request_context "authorizer" = Some (VDict authorizer_context)) :
  exists response,
    Hello.lambda_handler json_dumps format_value event = Ok response /\
    dict_get response "body" =
      Some (VStr (json_dumps
                    (VDict [("message",
                             VStr ("Hello " ++ name ++ ", authorization succeeded!"))]))).
Proof.
  unfold Hello.lambda_handler, dict_get_default. rewrite Hrc. simpl.
  unfold dict_get_default. rewrite Hauth. simpl.
  inversion Hpolicy; subst authorizer_context. simpl.
  eexists. repeat split.
Qed.

Lemma hello_greets_resolved_principal_witness :
  exists response,
    Hello.lambda_handler (fun _ => "{}") (fun _ => "?")
      [("requestContext",
        VDict [("authorizer", VDict [("username", VStr "alice")])])]
    = Ok response /\
    dict_get response "body" = Some (VStr "{}").
Proof.
  apply (hello_greets_resolved_principal (fun _ => "{}") (fun _ => "?")
           "alice" "Allow" (VStr "*")
           [("requestContext",
             VDict [("authorizer", VDict [("username", VStr "alice")])])]
           [("authorizer", VDict [("username", VStr "alice")])]
           [("username", VStr "alice")]
           eq_refl eq_refl eq_refl).
Defined.

(** * The deployment entry point *)

(** X15: [main] stops with [ValueError] at the first of [projectName],
    [awsRegion], [domainName], [certificateArn], [account] whose context
    value is missing or falsy (null, false, 0, an empty string, list or
    dict), naming that key; with none such it goes on with the five values
    as they were read. *)
Theorem main_context_first_missing (try_get_context : string -> pyval) :
  match find (fun key => negb (App.truthy (try_get_context key))) App.context_keys with
  | Some key => App.main_context try_get_context = Raise (App.must_set key)
  | None =>
      App.main_context try_get_context =
      Ok (App.mkContext (try_get_context "projectName") (try_get_context "awsRegion")
            (try_get_context "domainName") (try_get_context "certificateArn")
            (try_get_context "account"))
  end.
Proof.
  unfold App.main_context, App.context_keys. simpl.
  destruct (App.truthy (try_get_context "projectName")); simpl; [|reflexivity].
  destruct (App.truthy (try_get_context "awsRegion")); simpl; [|reflexivity].
  destruct (App.truthy (try_get_context "domainName")); simpl; [|reflexivity].
  destruct (App.truthy (try_get_context "certificateArn")); simpl; [|reflexivity].
  destruct (App.truthy (try_get_context "account")); simpl; reflexivity.
Qed.
